(** * NEXUS APEX MCP server: a model of [src/server.js]

    The server is an Express application over one SQLite database.  Every
    route handler is an [async] function that reads the request body, may
    draw identifiers ([uuidv4]) and pseudo-random numbers ([Math.random]),
    runs at most one INSERT or a few SELECTs, and answers with a status
    code and a JSON body.

    The model is a shallow embedding: each handler is a function from the
    request, the outcomes of the calls to the runtime (clock, identifiers,
    random numbers) and the database to a response and the database that
    follows.  Numbers are exact rationals ([Q]) where the source has
    binary64 numbers; text is a [string] holding its UTF-8 bytes, as
    SQLite's TEXT columns do. *)

From Stdlib Require Import ZArith QArith Qround Qminmax.
From Stdlib Require Import List String Ascii Bool Lia.
From Stdlib Require Import Permutation Sorted.
Import ListNotations.

Local Open Scope Z_scope.

(* ===================================================================== *)
(** ** The parts of the JavaScript runtime the handlers use               *)
(* ===================================================================== *)

Module JS.

(** A settled promise: [resolve(value)] or [reject(err)], the error kept by
    its [message]. *)
Inductive settled (A : Type) : Type :=
| Resolved (value : A)
| Rejected (message : string).
Arguments Resolved {A} value.
Arguments Rejected {A} message.

(** ToBoolean, on the kinds of value a body field holds.  A field that is
    absent from the body is [undefined], here [None]. *)
Class Falsy (A : Type) := falsy : A -> bool.

#[global] Instance falsy_string : Falsy string :=
  fun s => match s with EmptyString => true | String _ _ => false end.

#[global] Instance falsy_Z : Falsy Z := fun n => n =? 0.

#[global] Instance falsy_option {A} `{Falsy A} : Falsy (option A) :=
  fun v => match v with None => true | Some a => falsy a end.

(** The value of a field when it is truthy: [if (!v) return ...] goes on
    with [Some] only. *)
Definition truthy {A} `{Falsy A} (v : option A) : option A :=
  match v with
  | Some a => if falsy a then None else Some a
  | None => None
  end.

(** [v || d] where [v] may be undefined. *)
Definition or_else {A} `{Falsy A} (v : option A) (d : A) : A :=
  match v with
  | Some a => if falsy a then d else a
  | None => d
  end.

(** [const { f = d } = body]: the default of a destructuring pattern, taken
    only when the field is undefined. *)
Definition default_to {A} (v : option A) (d : A) : A :=
  match v with
  | Some a => a
  | None => d
  end.

(** [Math.round]: the nearest integer, a tie going up. *)
Definition Math_round (x : Q) : Z := Qfloor (x + (1 # 2)).

(** [Math.min] of two numbers. *)
Definition Math_min (x y : Q) : Q := Qmin x y.

(** [x.toFixed(2)]: the decimal numeral with two fraction digits nearest to
    [x], a tie going away from zero (the sign is split off first).  The
    numeral is kept by its value in hundredths. *)
Definition toFixed2 (x : Q) : Z :=
  if Qle_bool 0 x
  then Qfloor (x * 100 + (1 # 2))
  else - Qfloor (- x * 100 + (1 # 2)).

(** [parseFloat] of such a numeral. *)
Definition parseFloat2 (hundredths : Z) : Q := hundredths # 100.

(** [s.substring(0, n)]. *)
Definition substring0 (n : nat) (s : string) : string := String.substring 0 n s.

End JS.

(* ===================================================================== *)
(** ** JSON.stringify and JSON.parse on objects with text members         *)
(* ===================================================================== *)

Module JSON.

Definition dquote : ascii := ascii_of_nat 34.
Definition backslash : ascii := ascii_of_nat 92.

(** An object whose members are strings, in property order. *)
Definition object := list (string * string).

(** *** QuoteJSONString *)

Definition hex_digit (n : N) : ascii :=
  if (n <? 10)%N then ascii_of_N (48 + n) else ascii_of_N (87 + n).

(** [\u00XX] for a control character. *)
Definition unicode_escape (c : ascii) : string :=
  let n := N_of_ascii c in
  String backslash (String "u" (String "0" (String "0"
    (String (hex_digit (n / 16)) (String (hex_digit (n mod 16)) EmptyString))))).

Definition two (a b : ascii) : string := String a (String b EmptyString).

Definition quote_char (c : ascii) : string :=
  let n := N_of_ascii c in
  if (n =? 8)%N then two backslash "b"
  else if (n =? 9)%N then two backslash "t"
  else if (n =? 10)%N then two backslash "n"
  else if (n =? 12)%N then two backslash "f"
  else if (n =? 13)%N then two backslash "r"
  else if (n =? 34)%N then two backslash dquote
  else if (n =? 92)%N then two backslash backslash
  else if (n <? 32)%N then unicode_escape c
  else String c EmptyString.

Fixpoint quote_chars (s : string) : string :=
  match s with
  | EmptyString => EmptyString
  | String c rest => (quote_char c ++ quote_chars rest)%string
  end.

Definition quote (s : string) : string :=
  String dquote (quote_chars s ++ String dquote EmptyString)%string.

(** *** SerializeJSONObject, without gap or indent *)

Definition member (kv : string * string) : string :=
  (quote (fst kv) ++ String ":" (quote (snd kv)))%string.

Fixpoint members (o : object) : string :=
  match o with
  | [] => EmptyString
  | [kv] => member kv
  | kv :: rest => (member kv ++ String "," (members rest))%string
  end.

Definition stringify (o : object) : string :=
  String "{" (members o ++ String "}" EmptyString)%string.

(** SerializeJSONArray of an array of strings. *)
Fixpoint elements (a : list string) : string :=
  match a with
  | [] => EmptyString
  | [x] => quote x
  | x :: rest => (quote x ++ String "," (elements rest))%string
  end.

Definition stringify_array (a : list string) : string :=
  String "[" (elements a ++ String "]" EmptyString)%string.

(** *** JSON.parse *)

Definition hex_value (c : ascii) : option N :=
  let n := N_of_ascii c in
  if ((48 <=? n) && (n <=? 57))%N then Some (n - 48)%N
  else if ((97 <=? n) && (n <=? 102))%N then Some (n - 87)%N
  else if ((65 <=? n) && (n <=? 70))%N then Some (n - 55)%N
  else None.

Definition hex4 (a b c d : ascii) : option N :=
  match hex_value a, hex_value b, hex_value c, hex_value d with
  | Some x, Some y, Some z, Some w => Some (((x * 16 + y) * 16 + z) * 16 + w)%N
  | _, _, _, _ => None
  end.

Definition is_high_surrogate (n : N) : bool := ((55296 <=? n) && (n <=? 56319))%N.
Definition is_low_surrogate (n : N) : bool := ((56320 <=? n) && (n <=? 57343))%N.

(** The UTF-8 bytes of a code point. *)
Definition utf8 (n : N) : string :=
  if (n <? 128)%N then String (ascii_of_N n) EmptyString
  else if (n <? 2048)%N then
    two (ascii_of_N (192 + n / 64)) (ascii_of_N (128 + n mod 64))
  else if (n <? 65536)%N then
    String (ascii_of_N (224 + n / 4096))
      (two (ascii_of_N (128 + (n / 64) mod 64)) (ascii_of_N (128 + n mod 64)))
  else
    String (ascii_of_N (240 + n / 262144))
      (String (ascii_of_N (128 + (n / 4096) mod 64))
         (two (ascii_of_N (128 + (n / 64) mod 64)) (ascii_of_N (128 + n mod 64)))).

(** The character a two-character escape stands for. *)
Definition unescape (e : ascii) : option ascii :=
  let n := N_of_ascii e in
  if (n =? 34)%N then Some dquote
  else if (n =? 92)%N then Some backslash
  else if (n =? 47)%N then Some "/"%char
  else if (n =? 98)%N then Some (ascii_of_nat 8)
  else if (n =? 102)%N then Some (ascii_of_nat 12)
  else if (n =? 110)%N then Some (ascii_of_nat 10)
  else if (n =? 114)%N then Some (ascii_of_nat 13)
  else if (n =? 116)%N then Some (ascii_of_nat 9)
  else None.

Definition prepend (p : string) (r : option (string * string)) : option (string * string) :=
  match r with
  | Some (s, rest) => Some ((p ++ s)%string, rest)
  | None => None
  end.

(** The characters of a string literal after its opening quote, up to and
    including the closing quote: the text they denote and what follows.  A
    [\u] escape of a surrogate that has no partner denotes no UTF-8 text and
    is refused. *)
Fixpoint parse_chars (s : string) : option (string * string) :=
  match s with
  | EmptyString => None
  | String c rest =>
    if (N_of_ascii c =? 34)%N then Some (EmptyString, rest)
    else if (N_of_ascii c =? 92)%N then
      match rest with
      | EmptyString => None
      | String e rest1 =>
        match unescape e with
        | Some d => prepend (String d EmptyString) (parse_chars rest1)
        | None =>
          if (N_of_ascii e =? 117)%N then
            match rest1 with
            | String h1 (String h2 (String h3 (String h4 rest2))) =>
              match hex4 h1 h2 h3 h4 with
              | None => None
              | Some n =>
                if is_low_surrogate n then None
                else if is_high_surrogate n then
                  match rest2 with
                  | String b (String u (String l1 (String l2 (String l3 (String l4 rest3))))) =>
                    if ((N_of_ascii b =? 92) && (N_of_ascii u =? 117))%N then
                      match hex4 l1 l2 l3 l4 with
                      | Some m =>
                        if is_low_surrogate m
                        then prepend (utf8 (65536 + (n - 55296) * 1024 + (m - 56320)))
                                     (parse_chars rest3)
                        else None
                      | None => None
                      end
                    else None
                  | _ => None
                  end
                else prepend (utf8 n) (parse_chars rest2)
              end
            | _ => None
            end
          else None
        end
      end
    else if (N_of_ascii c <? 32)%N then None
    else prepend (String c EmptyString) (parse_chars rest)
  end.

Definition is_ws (c : ascii) : bool :=
  let n := N_of_ascii c in
  ((n =? 32) || (n =? 9) || (n =? 10) || (n =? 13))%N.

Fixpoint skip_ws (s : string) : string :=
  match s with
  | String c rest => if is_ws c then skip_ws rest else s
  | EmptyString => s
  end.

(** A string literal, leading white space skipped. *)
Definition parse_string (s : string) : option (string * string) :=
  match skip_ws s with
  | String c rest => if (N_of_ascii c =? 34)%N then parse_chars rest else None
  | EmptyString => None
  end.

(** CreateDataProperty: a repeated key keeps its place and takes the later
    value. *)
Fixpoint set_member (k v : string) (o : object) : object :=
  match o with
  | [] => [(k, v)]
  | (k', v') :: rest =>
    if (k' =? k)%string then (k, v) :: rest else (k', v') :: set_member k v rest
  end.

(** The members of an object after its opening brace, one per unit of
    [fuel]. *)
Fixpoint parse_members (fuel : nat) (s : string) (acc : object) : option (object * string) :=
  match fuel with
  | O => None
  | S fuel' =>
    match parse_string s with
    | None => None
    | Some (k, after_key) =>
      match skip_ws after_key with
      | String colon after_colon =>
        if (N_of_ascii colon =? 58)%N then
          match parse_string after_colon with
          | None => None
          | Some (v, after_value) =>
            match skip_ws after_value with
            | String sep rest =>
              if (N_of_ascii sep =? 44)%N then parse_members fuel' rest (set_member k v acc)
              else if (N_of_ascii sep =? 125)%N then Some (set_member k v acc, rest)
              else None
            | EmptyString => None
            end
          end
        else None
      | EmptyString => None
      end
    end
  end.

(** [JSON.parse] of a text that is an object with text members; [None] is a
    SyntaxError or a value of another shape.  The fuel is the length of the
    text: each member takes characters. *)
Definition parse (s : string) : option object :=
  match skip_ws s with
  | String open rest =>
    if (N_of_ascii open =? 123)%N then
      match skip_ws rest with
      | String close rest' =>
        if (N_of_ascii close =? 125)%N then
          match skip_ws rest' with EmptyString => Some [] | _ => None end
        else
          match parse_members (String.length s) rest [] with
          | Some (o, rest'') =>
            match skip_ws rest'' with EmptyString => Some o | _ => None end
          | None => None
          end
      | EmptyString => None
      end
    else None
  | EmptyString => None
  end.

End JSON.

(* ===================================================================== *)
(** ** The database: the six tables of [initializeDatabase]               *)
(* ===================================================================== *)

(** A DATETIME column holds the text of [datetime("now")], a UTC time to
    the second; it is kept as the count of seconds since the epoch. *)

Module Users.
Record row := { id : string; email : string; createdAt : Z }.
End Users.

Module LoraTrainings.
Record row := {
  id : string; characterName : string; status : string; progress : Q;
  strength : Q; epochs : Z; createdAt : Z }.
End LoraTrainings.

Module JsonConfigs.
Record row := {
  id : string; character : string; environment : string; lighting : string;
  camera : string; style : string; negativePrompt : string;
  configJson : string; createdAt : Z }.
End JsonConfigs.

Module ImageScores.
Record row := {
  id : string; imageUrl : string; drama : Z; saliency : Z; emotion : Z;
  depth : Z; signature : Z; total : Z; feedback : string; createdAt : Z }.
End ImageScores.

Module AnatomyValidations.
Record row := {
  id : string; imageUrl : string; handsScore : Z; faceScore : Z; bodyScore : Z;
  overallScore : Z; issues : string; createdAt : Z }.
End AnatomyValidations.

Module RemotionDeployments.
Record row := {
  id : string; configId : string; status : string; progress : Q;
  vercelUrl : option string; videoPath : option string;
  duration : Z; effects : string; createdAt : Z }.
End RemotionDeployments.

Module Db.

Record database := {
  users : list Users.row;
  lora_trainings : list LoraTrainings.row;
  json_configs : list JsonConfigs.row;
  image_scores : list ImageScores.row;
  anatomy_validations : list AnatomyValidations.row;
  remotion_deployments : list RemotionDeployments.row }.

(** The database after [initializeDatabase] on a new file. *)
Definition empty : database :=
  {| users := []; lora_trainings := []; json_configs := []; image_scores := [];
     anatomy_validations := []; remotion_deployments := [] |}.

(** [datetime("now")] when the clock reads [now] milliseconds. *)
Definition datetime_now (now : Z) : Z := now / 1000.

(** The five INSERT statements of the handlers, each with its bound
    parameters as the row it writes. *)
Inductive statement : Type :=
| INSERT_INTO_lora_trainings (r : LoraTrainings.row)
| INSERT_INTO_json_configs (r : JsonConfigs.row)
| INSERT_INTO_image_scores (r : ImageScores.row)
| INSERT_INTO_anatomy_validations (r : AnatomyValidations.row)
| INSERT_INTO_remotion_deployments (r : RemotionDeployments.row).

(** [id TEXT PRIMARY KEY]: is the key taken? *)
Definition has_id {R : Type} (key : R -> string) (i : string) (t : list R) : bool :=
  existsb (fun r => (key r =? i)%string) t.

(** A table with one more row at its end, or the constraint error. *)
Definition add_row {R : Type} (key : R -> string) (name : string) (r : R) (t : list R)
  : JS.settled (list R) :=
  if has_id key (key r) t
  then JS.Rejected ("SQLITE_CONSTRAINT: UNIQUE constraint failed: " ++ name ++ ".id")%string
  else JS.Resolved (t ++ [r]).

(** [dbRun(sql, params)]: the promise of the database after the statement. *)
Definition dbRun (stmt : statement) (db : database) : JS.settled database :=
  match stmt with
  | INSERT_INTO_lora_trainings r =>
    match add_row LoraTrainings.id "lora_trainings" r (lora_trainings db) with
    | JS.Resolved t =>
      JS.Resolved {| users := users db; lora_trainings := t; json_configs := json_configs db;
                     image_scores := image_scores db;
                     anatomy_validations := anatomy_validations db;
                     remotion_deployments := remotion_deployments db |}
    | JS.Rejected m => JS.Rejected m
    end
  | INSERT_INTO_json_configs r =>
    match add_row JsonConfigs.id "json_configs" r (json_configs db) with
    | JS.Resolved t =>
      JS.Resolved {| users := users db; lora_trainings := lora_trainings db; json_configs := t;
                     image_scores := image_scores db;
                     anatomy_validations := anatomy_validations db;
                     remotion_deployments := remotion_deployments db |}
    | JS.Rejected m => JS.Rejected m
    end
  | INSERT_INTO_image_scores r =>
    match add_row ImageScores.id "image_scores" r (image_scores db) with
    | JS.Resolved t =>
      JS.Resolved {| users := users db; lora_trainings := lora_trainings db;
                     json_configs := json_configs db; image_scores := t;
                     anatomy_validations := anatomy_validations db;
                     remotion_deployments := remotion_deployments db |}
    | JS.Rejected m => JS.Rejected m
    end
  | INSERT_INTO_anatomy_validations r =>
    match add_row AnatomyValidations.id "anatomy_validations" r (anatomy_validations db) with
    | JS.Resolved t =>
      JS.Resolved {| users := users db; lora_trainings := lora_trainings db;
                     json_configs := json_configs db; image_scores := image_scores db;
                     anatomy_validations := t;
                     remotion_deployments := remotion_deployments db |}
    | JS.Rejected m => JS.Rejected m
    end
  | INSERT_INTO_remotion_deployments r =>
    match add_row RemotionDeployments.id "remotion_deployments" r (remotion_deployments db) with
    | JS.Resolved t =>
      JS.Resolved {| users := users db; lora_trainings := lora_trainings db;
                     json_configs := json_configs db; image_scores := image_scores db;
                     anatomy_validations := anatomy_validations db;
                     remotion_deployments := t |}
    | JS.Rejected m => JS.Rejected m
    end
  end.

(** [dbGet('SELECT * FROM t WHERE id = ?', [i])]: the row, or undefined. *)
Definition select_by_id {R : Type} (key : R -> string) (i : string) (t : list R) : option R :=
  find (fun r => (key r =? i)%string) t.

(** [dbGet] of a SELECT COUNT query: the row [{ count }]. *)
Definition select_count {R : Type} (t : list R) : option Z := Some (Z.of_nat (List.length t)).

(** ORDER BY createdAt DESC: rows inserted one by one into a list kept
    newest first.  SQL leaves the order among rows of one second open; here
    they keep the order in which they were stored. *)
Fixpoint insert_desc (r : ImageScores.row) (sorted : list ImageScores.row)
  : list ImageScores.row :=
  match sorted with
  | [] => [r]
  | x :: rest =>
    if ImageScores.createdAt x <=? ImageScores.createdAt r
    then r :: sorted
    else x :: insert_desc r rest
  end.

Definition order_by_createdAt_desc (t : list ImageScores.row) : list ImageScores.row :=
  fold_right insert_desc [] t.

(** [dbAll('SELECT * FROM image_scores ORDER BY createdAt DESC LIMIT 10')]. *)
Definition select_recent_scores (db : database) : list ImageScores.row :=
  firstn 10 (order_by_createdAt_desc (image_scores db)).

(** The number of rows of each table, in the order of the schema. *)
Definition counts (db : database) : list Z :=
  [ Z.of_nat (List.length (users db)); Z.of_nat (List.length (lora_trainings db));
    Z.of_nat (List.length (json_configs db)); Z.of_nat (List.length (image_scores db));
    Z.of_nat (List.length (anatomy_validations db));
    Z.of_nat (List.length (remotion_deployments db)) ].

End Db.

(* ===================================================================== *)
(** ** Requests and responses                                              *)
(* ===================================================================== *)

(** The request bodies, each field possibly absent.  Fields are typed as the
    columns they are stored in: text, INTEGER, REAL. *)

Module TrainLoraBody.
Record t := {
  characterName : option string; baseModel : option string;
  strength : option Q; epochs : option Z }.
End TrainLoraBody.

Module GenerateJsonBody.
Record t := {
  character : option string; environment : option string; lighting : option string;
  camera : option string; style : option string; negativePrompt : option string }.
End GenerateJsonBody.

Module ImageBody.
Record t := { imageUrl : option string }.
End ImageBody.

Module DeployRemotionBody.
(** [jsonConfig] is an object read only through its [id]. *)
Record config := { id : option string }.
Record t := {
  jsonConfig : option config; duration : option Z; effects : option string }.
End DeployRemotionBody.

Module Res.

(** The [hands], [face] and [body] objects of an anatomy validation. *)
Record hands := {
  hands_detected : bool; hands_quality : Z; hands_issues : list string;
  hands_status : string }.
Record face := {
  face_detected : bool; face_symmetry : Z; face_proportions : string;
  face_status : string }.
Record body := {
  body_detected : bool; body_posture : string; body_proportions : string;
  body_status : string }.

(** The JSON bodies the handlers send.  The free-text [message] of the
    success bodies and the [modelPath] of a started training (a template over
    [toLowerCase]) are left out. *)
Inductive json : Type :=
| Error (error : string)
| Health (status message : string)
| TrainingStarted (jobId status : string) (progress : Q)
    (characterName baseModel : string) (strength : Q) (epochs : Z) (eta : string)
| TrainingPolled (training : LoraTrainings.row)
| ConfigGenerated (id : string) (jsonConfig : JSON.object) (createdAt : Z)
| ImageScored (id imageUrl : string) (drama saliency emotion depth signature total : Z)
    (quality feedback : string) (suggestions : list string)
| Scores (scores : list ImageScores.row) (total : Z)
| AnatomyValidated (id imageUrl : string) (h : hands) (f : face) (b : body)
    (overallScore : Z) (verdict : string)
| DeploymentStarted (jobId status : string) (progress : Q) (duration : Z)
    (effects vercelUrl videoPath eta : string)
| DeploymentPolled (deployment : RemotionDeployments.row)
| Stats (loraTrainings jsonConfigs imageScores remotionDeployments : Z).

Record t := { status : Z; sent : json }.

(** [res.json(b)] and [res.status(s).json(b)]. *)
Definition json_ (b : json) : t := {| status := 200; sent := b |}.
Definition status_json (s : Z) (b : json) : t := {| status := s; sent := b |}.

End Res.

(* ===================================================================== *)
(** ** The route handlers                                                  *)
(* ===================================================================== *)

Module Server.

(** What one request gets from the runtime: the clock, and the results of
    its calls to [uuidv4()] and [Math.random()], numbered in call order. *)
Record runtime := {
  Date_now : Z;
  uuidv4 : nat -> string;
  Math_random : nat -> Q }.

(** [new Date(createdAt)], in milliseconds: the stored second, read back as
    the instant it names (the server keeps its clock in UTC). *)
Definition Date_of (createdAt : Z) : Z := 1000 * createdAt.

(** [catch (error) { res.status(500).json({ error: error.message }) }]
    around the single statement of a handler. *)
Definition try_run (stmt : Db.statement) (db : Db.database) (ok : Res.json)
  : Res.t * Db.database :=
  match Db.dbRun stmt db with
  | JS.Resolved db' => (Res.json_ ok, db')
  | JS.Rejected message => (Res.status_json 500 (Res.Error message), db)
  end.

(** GET /health *)
Definition get_health (db : Db.database) : Res.t * Db.database :=
  (Res.json_ (Res.Health "ok" "✅ MCP Server is running"), db).

(** POST /api/train-lora *)
Definition post_train_lora (rt : runtime) (req : TrainLoraBody.t) (db : Db.database)
  : Res.t * Db.database :=
  let baseModel := JS.default_to (TrainLoraBody.baseModel req) "FLUX.1-Pro-Ultra"%string in
  let strength := JS.default_to (TrainLoraBody.strength req) (85 # 100) in
  let epochs := JS.default_to (TrainLoraBody.epochs req) 100 in
  match JS.truthy (TrainLoraBody.characterName req) with
  | None => (Res.status_json 400 (Res.Error "characterName is required"), db)
  | Some characterName =>
    let jobId := uuidv4 rt 0%nat in
    try_run
      (Db.INSERT_INTO_lora_trainings
         {| LoraTrainings.id := jobId; LoraTrainings.characterName := characterName;
            LoraTrainings.status := "training"; LoraTrainings.progress := 0;
            LoraTrainings.strength := strength; LoraTrainings.epochs := epochs;
            LoraTrainings.createdAt := Db.datetime_now (Date_now rt) |})
      db
      (Res.TrainingStarted jobId "training" 0 characterName baseModel strength epochs
         "2-3 minutes")
  end.

(** GET /api/train-lora/:jobId *)
Definition get_train_lora (rt : runtime) (jobId : string) (db : Db.database)
  : Res.t * Db.database :=
  match Db.select_by_id LoraTrainings.id jobId (Db.lora_trainings db) with
  | None => (Res.status_json 404 (Res.Error "Training not found"), db)
  | Some training =>
    let elapsed := Date_now rt - Date_of (LoraTrainings.createdAt training) in
    let progress := JS.Math_min 100 (inject_Z elapsed / 120000 * 100) in
    (Res.json_
       (Res.TrainingPolled
          {| LoraTrainings.id := LoraTrainings.id training;
             LoraTrainings.characterName := LoraTrainings.characterName training;
             LoraTrainings.status := LoraTrainings.status training;
             LoraTrainings.progress := JS.parseFloat2 (JS.toFixed2 progress);
             LoraTrainings.strength := LoraTrainings.strength training;
             LoraTrainings.epochs := LoraTrainings.epochs training;
             LoraTrainings.createdAt := LoraTrainings.createdAt training |}),
     db)
  end.

(** POST /api/generate-json *)
Definition post_generate_json (rt : runtime) (req : GenerateJsonBody.t) (db : Db.database)
  : Res.t * Db.database :=
  let camera := GenerateJsonBody.camera req in
  let style := GenerateJsonBody.style req in
  let negativePrompt := GenerateJsonBody.negativePrompt req in
  match JS.truthy (GenerateJsonBody.character req),
        JS.truthy (GenerateJsonBody.environment req),
        JS.truthy (GenerateJsonBody.lighting req) with
  | Some character, Some environment, Some lighting =>
    let configId := uuidv4 rt 0%nat in
    let jsonConfig : JSON.object :=
      [ ("character", character); ("environment", environment); ("lighting", lighting);
        ("camera", JS.or_else camera "Standard");
        ("style", JS.or_else style "Cinematic");
        ("negativePrompt", JS.or_else negativePrompt "deformed, blurry, low quality")
      ]%string in
    try_run
      (Db.INSERT_INTO_json_configs
         {| JsonConfigs.id := configId; JsonConfigs.character := character;
            JsonConfigs.environment := environment; JsonConfigs.lighting := lighting;
            JsonConfigs.camera := JS.or_else camera "Standard"%string;
            JsonConfigs.style := JS.or_else style "Cinematic"%string;
            JsonConfigs.negativePrompt :=
              JS.or_else negativePrompt "deformed, blurry, low quality"%string;
            JsonConfigs.configJson := JSON.stringify jsonConfig;
            JsonConfigs.createdAt := Db.datetime_now (Date_now rt) |})
      db
      (Res.ConfigGenerated configId jsonConfig (Date_now rt))
  | _, _, _ =>
    (Res.status_json 400 (Res.Error "character, environment, and lighting are required"), db)
  end.

(** The banding of a rounded total: [quality] and [feedback] (the chain of
    comparisons of POST /api/score-image). *)
Definition quality_band (total : Z) : string * string :=
  if total >=? 85 then
    ("Excellent", "Masterpiece level! All dimensions are outstanding.")%string
  else if total >=? 75 then
    ("Good", "Consider: enhance saliency, add depth, improve drama")%string
  else if total >=? 60 then
    ("Fair", "Work on composition, lighting, and focus")%string
  else
    ("Weak", "Major improvements needed in multiple areas")%string.

(** POST /api/score-image *)
Definition post_score_image (rt : runtime) (req : ImageBody.t) (db : Db.database)
  : Res.t * Db.database :=
  match JS.truthy (ImageBody.imageUrl req) with
  | None => (Res.status_json 400 (Res.Error "imageUrl is required"), db)
  | Some imageUrl =>
    let scoreId := uuidv4 rt 0%nat in
    let drama := JS.Math_round (Math_random rt 0%nat * 30 + 60) in
    let saliency := JS.Math_round (Math_random rt 1%nat * 30 + 65) in
    let emotion := JS.Math_round (Math_random rt 2%nat * 30 + 60) in
    let depth := JS.Math_round (Math_random rt 3%nat * 30 + 70) in
    let signature := JS.Math_round (Math_random rt 4%nat * 30 + 65) in
    let total :=
      JS.Math_round (inject_Z (drama + saliency + emotion + depth + signature) / 5) in
    let (quality, feedback) := quality_band total in
    try_run
      (Db.INSERT_INTO_image_scores
         {| ImageScores.id := scoreId; ImageScores.imageUrl := imageUrl;
            ImageScores.drama := drama; ImageScores.saliency := saliency;
            ImageScores.emotion := emotion; ImageScores.depth := depth;
            ImageScores.signature := signature; ImageScores.total := total;
            ImageScores.feedback := feedback;
            ImageScores.createdAt := Db.datetime_now (Date_now rt) |})
      db
      (Res.ImageScored scoreId imageUrl drama saliency emotion depth signature total
         quality feedback
         [ "Increase contrast for more drama"; "Add focal point for better saliency";
           "Layer composition for depth" ]%string)
  end.

(** GET /api/scores *)
Definition get_scores (db : Db.database) : Res.t * Db.database :=
  let scores := Db.select_recent_scores db in
  (Res.json_ (Res.Scores scores (Z.of_nat (List.length scores))), db).

(** POST /api/validate-anatomy *)
Definition post_validate_anatomy (rt : runtime) (req : ImageBody.t) (db : Db.database)
  : Res.t * Db.database :=
  match JS.truthy (ImageBody.imageUrl req) with
  | None => (Res.status_json 400 (Res.Error "imageUrl is required"), db)
  | Some imageUrl =>
    let validationId := uuidv4 rt 0%nat in
    let handsScore := JS.Math_round (Math_random rt 0%nat * 10 + 85) in
    let faceScore := JS.Math_round (Math_random rt 1%nat * 10 + 88) in
    let bodyScore := JS.Math_round (Math_random rt 2%nat * 10 + 82) in
    let overallScore := JS.Math_round (inject_Z (handsScore + faceScore + bodyScore) / 3) in
    let verdict :=
      if overallScore >=? 90 then "Excellent anatomy! ✅"%string
      else "Good anatomy. Minor adjustments possible."%string in
    let issues :=
      if overallScore <? 85 then [ "Consider hand pose"; "Adjust shoulder width" ]%string
      else [] in
    try_run
      (Db.INSERT_INTO_anatomy_validations
         {| AnatomyValidations.id := validationId; AnatomyValidations.imageUrl := imageUrl;
            AnatomyValidations.handsScore := handsScore;
            AnatomyValidations.faceScore := faceScore;
            AnatomyValidations.bodyScore := bodyScore;
            AnatomyValidations.overallScore := overallScore;
            AnatomyValidations.issues := JSON.stringify_array issues;
            AnatomyValidations.createdAt := Db.datetime_now (Date_now rt) |})
      db
      (Res.AnatomyValidated validationId imageUrl
         {| Res.hands_detected := true; Res.hands_quality := handsScore;
            Res.hands_issues :=
              if handsScore <? 90 then [ "Finger positioning"%string ] else [];
            Res.hands_status := if handsScore >=? 90 then "Perfect" else "Good" |}
         {| Res.face_detected := true; Res.face_symmetry := faceScore;
            Res.face_proportions := "Correct";
            Res.face_status := if faceScore >=? 90 then "Symmetric" else "Acceptable" |}
         {| Res.body_detected := true; Res.body_posture := "Natural";
            Res.body_proportions := "Proportional";
            Res.body_status := if bodyScore >=? 90 then "Perfect" else "Good" |}
         overallScore verdict)
  end.

(** POST /api/deploy-remotion *)
Definition post_deploy_remotion (rt : runtime) (req : DeployRemotionBody.t)
  (db : Db.database) : Res.t * Db.database :=
  let jsonConfig := DeployRemotionBody.jsonConfig req in
  let duration := JS.default_to (DeployRemotionBody.duration req) 15 in
  let effects := JS.default_to (DeployRemotionBody.effects req) "None"%string in
  if JS.falsy duration then (Res.status_json 400 (Res.Error "duration is required"), db)
  else
    let jobId := uuidv4 rt 0%nat in
    let configId :=
      JS.or_else
        (match jsonConfig with Some c => DeployRemotionBody.id c | None => None end)
        (uuidv4 rt 1%nat) in
    let vercelUrl :=
      ("https://nexus-apex-video-" ++ JS.substring0 8 jobId ++ ".vercel.app")%string in
    try_run
      (Db.INSERT_INTO_remotion_deployments
         {| RemotionDeployments.id := jobId; RemotionDeployments.configId := configId;
            RemotionDeployments.status := "deploying"; RemotionDeployments.progress := 0;
            RemotionDeployments.vercelUrl := None; RemotionDeployments.videoPath := None;
            RemotionDeployments.duration := duration; RemotionDeployments.effects := effects;
            RemotionDeployments.createdAt := Db.datetime_now (Date_now rt) |})
      db
      (Res.DeploymentStarted jobId "deploying" 0 duration effects vercelUrl
         ("/videos/output_" ++ jobId ++ ".mp4")%string "3-5 minutes").

(** GET /api/deploy-remotion/:jobId *)
Definition get_deploy_remotion (rt : runtime) (jobId : string) (db : Db.database)
  : Res.t * Db.database :=
  match Db.select_by_id RemotionDeployments.id jobId (Db.remotion_deployments db) with
  | None => (Res.status_json 404 (Res.Error "Deployment not found"), db)
  | Some deployment =>
    let elapsed := Date_now rt - Date_of (RemotionDeployments.createdAt deployment) in
    let progress := JS.Math_min 100 (inject_Z elapsed / 180000 * 100) in
    (Res.json_
       (Res.DeploymentPolled
          {| RemotionDeployments.id := RemotionDeployments.id deployment;
             RemotionDeployments.configId := RemotionDeployments.configId deployment;
             RemotionDeployments.status := RemotionDeployments.status deployment;
             RemotionDeployments.progress := JS.parseFloat2 (JS.toFixed2 progress);
             RemotionDeployments.vercelUrl := RemotionDeployments.vercelUrl deployment;
             RemotionDeployments.videoPath := RemotionDeployments.videoPath deployment;
             RemotionDeployments.duration := RemotionDeployments.duration deployment;
             RemotionDeployments.effects := RemotionDeployments.effects deployment;
             RemotionDeployments.createdAt := RemotionDeployments.createdAt deployment |}),
     db)
  end.

(** GET /api/stats *)
Definition get_stats (db : Db.database) : Res.t * Db.database :=
  let loraCount := Db.select_count (Db.lora_trainings db) in
  let configsCount := Db.select_count (Db.json_configs db) in
  let scoresCount := Db.select_count (Db.image_scores db) in
  let deploymentsCount := Db.select_count (Db.remotion_deployments db) in
  (Res.json_
     (Res.Stats (JS.or_else loraCount 0) (JS.or_else configsCount 0)
        (JS.or_else scoresCount 0) (JS.or_else deploymentsCount 0)),
   db).

(** A request to one of the routes. *)
Inductive request : Type :=
| GET_health
| POST_train_lora (req : TrainLoraBody.t)
| GET_train_lora (jobId : string)
| POST_generate_json (req : GenerateJsonBody.t)
| POST_score_image (req : ImageBody.t)
| GET_scores
| POST_validate_anatomy (req : ImageBody.t)
| POST_deploy_remotion (req : DeployRemotionBody.t)
| GET_deploy_remotion (jobId : string)
| GET_stats.

(** The router: the handler registered for the request. *)
Definition handle (rt : runtime) (r : request) (db : Db.database) : Res.t * Db.database :=
  match r with
  | GET_health => get_health db
  | POST_train_lora req => post_train_lora rt req db
  | GET_train_lora jobId => get_train_lora rt jobId db
  | POST_generate_json req => post_generate_json rt req db
  | POST_score_image req => post_score_image rt req db
  | GET_scores => get_scores db
  | POST_validate_anatomy req => post_validate_anatomy rt req db
  | POST_deploy_remotion req => post_deploy_remotion rt req db
  | GET_deploy_remotion jobId => get_deploy_remotion rt jobId db
  | GET_stats => get_stats db
  end.

(** Requests served one after the other: the responses, and the database at
    the end. *)
Fixpoint serve (calls : list (runtime * request)) (db : Db.database)
  : list Res.t * Db.database :=
  match calls with
  | [] => ([], db)
  | (rt, r) :: rest =>
    let (res, db1) := handle rt r db in
    let (more, db2) := serve rest db1 in
    (res :: more, db2)
  end.

End Server.

(* ===================================================================== *)
(** ** The specification's ProgressEstimator, in its own words             *)
(* ===================================================================== *)

Module Spec.

(** The two kinds of job, each with its fixed expected duration. *)
Inductive job_type : Type := Training | Deployment.

Definition expectedDurationMs (j : job_type) : Z :=
  match j with
  | Training => 120000
  | Deployment => 180000
  end.

Definition clamp (lo hi x : Q) : Q := Qmax lo (Qmin hi x).

(** [progressPercent = clamp(0, 100, (elapsed / expectedDurationMs) * 100)],
    rounded to 2 decimal digits. *)
Definition progress (now createdAt expected : Z) : Q :=
  let elapsed := now - createdAt in
  JS.parseFloat2
    (JS.toFixed2 (clamp 0 100 (inject_Z elapsed / inject_Z expected * 100))).

End Spec.

(** The poll route of a kind of job, the creation time of the record it
    finds, and the progress a response reports. *)
Definition poll (j : Spec.job_type) (rt : Server.runtime) (jobId : string) (db : Db.database)
  : Res.t * Db.database :=
  match j with
  | Spec.Training => Server.get_train_lora rt jobId db
  | Spec.Deployment => Server.get_deploy_remotion rt jobId db
  end.

Definition created_at (j : Spec.job_type) (jobId : string) (db : Db.database) : option Z :=
  match j with
  | Spec.Training =>
    option_map LoraTrainings.createdAt
      (Db.select_by_id LoraTrainings.id jobId (Db.lora_trainings db))
  | Spec.Deployment =>
    option_map RemotionDeployments.createdAt
      (Db.select_by_id RemotionDeployments.id jobId (Db.remotion_deployments db))
  end.

Definition reported_progress (res : Res.t) : option Q :=
  match Res.sent res with
  | Res.TrainingPolled training => Some (LoraTrainings.progress training)
  | Res.DeploymentPolled deployment => Some (RemotionDeployments.progress deployment)
  | _ => None
  end.

(** What the two poll handlers compute from the elapsed time:
    [(elapsed / expected) * 100], then [Math.min] and the rounding. *)
Definition percent (expected elapsed : Z) : Q :=
  inject_Z elapsed / inject_Z expected * 100.

Definition estimate (expected elapsed : Z) : Q :=
  JS.parseFloat2 (JS.toFixed2 (JS.Math_min 100 (percent expected elapsed))).

(** A database with one training job, stored at second 1000. *)
Definition one_training : Db.database :=
  {| Db.users := [];
     Db.lora_trainings :=
       [ {| LoraTrainings.id := "job-1"; LoraTrainings.characterName := "Ana";
            LoraTrainings.status := "training"; LoraTrainings.progress := 0;
            LoraTrainings.strength := 85 # 100; LoraTrainings.epochs := 100;
            LoraTrainings.createdAt := 1000 |} ];
     Db.json_configs := []; Db.image_scores := []; Db.anatomy_validations := [];
     Db.remotion_deployments := [] |}.

(** A runtime whose clock reads [now]; it draws nothing. *)
Definition at_time (now : Z) : Server.runtime :=
  {| Server.Date_now := now;
     Server.uuidv4 := fun _ => EmptyString;
     Server.Math_random := fun _ => 0%Q |}.

(** [Math.random()] answers a number of the interval from 0 (included) to 1
    (excluded): the runtimes whose draws do. *)
Definition unit_draws (rt : Server.runtime) : Prop :=
  forall n : nat, (0 <= Server.Math_random rt n)%Q /\ (Server.Math_random rt n < 1)%Q.

(** A runtime whose clock reads [now], whose identifiers derive from [id]
    and whose draws all are [r]. *)
Definition fixed_runtime (now : Z) (id : string) (r : Q) : Server.runtime :=
  {| Server.Date_now := now;
     Server.uuidv4 := fun n => match n with O => id | S _ => (id ++ "-config")%string end;
     Server.Math_random := fun _ => r |}.

(** A body that names an image. *)
Definition an_image : ImageBody.t :=
  {| ImageBody.imageUrl := Some "https://example.org/a.png"%string |}.

(** The members of [o] set one after the other on [acc], as [JSON.parse]
    builds an object. *)
Definition set_all (o acc : JSON.object) : JSON.object :=
  fold_left (fun a kv => JSON.set_member (fst kv) (snd kv) a) o acc.

(** The structured columns of a stored configuration, as an object. *)
Definition structured_fields (row : JsonConfigs.row) : JSON.object :=
  [ ("character", JsonConfigs.character row);
    ("environment", JsonConfigs.environment row);
    ("lighting", JsonConfigs.lighting row);
    ("camera", JsonConfigs.camera row);
    ("style", JsonConfigs.style row);
    ("negativePrompt", JsonConfigs.negativePrompt row) ]%string.

(** A body with the three required fields only. *)
Definition required_only : GenerateJsonBody.t :=
  {| GenerateJsonBody.character := Some "Ana"%string;
     GenerateJsonBody.environment := Some "a \ forest"%string;
     GenerateJsonBody.lighting := Some "dusk"%string;
     GenerateJsonBody.camera := None;
     GenerateJsonBody.style := None;
     GenerateJsonBody.negativePrompt := None |}.

(** [x] was created no earlier than [y]. *)
Definition newer_first (x y : ImageScores.row) : Prop :=
  ImageScores.createdAt y <= ImageScores.createdAt x.

(** The score stored at second [n], and a database with the scores of
    seconds 1 to 11. *)
Definition score_at (n : nat) : ImageScores.row :=
  {| ImageScores.id := String (ascii_of_nat (64 + n)) EmptyString;
     ImageScores.imageUrl := "https://example.org/a.png";
     ImageScores.drama := 75; ImageScores.saliency := 80; ImageScores.emotion := 75;
     ImageScores.depth := 85; ImageScores.signature := 80; ImageScores.total := 79;
     ImageScores.feedback := "Consider: enhance saliency, add depth, improve drama";
     ImageScores.createdAt := Z.of_nat n |}.

Definition eleven_scores : Db.database :=
  {| Db.users := []; Db.lora_trainings := []; Db.json_configs := [];
     Db.image_scores := map score_at (seq 1 11);
     Db.anatomy_validations := []; Db.remotion_deployments := [] |}.

(** A deployment body with no field at all. *)
Definition empty_body : DeployRemotionBody.t :=
  {| DeployRemotionBody.jsonConfig := None; DeployRemotionBody.duration := None;
     DeployRemotionBody.effects := None |}.

(** The five tables that hold the records of the creation routes. *)
Inductive table : Type :=
| lora_trainings | json_configs | image_scores | anatomy_validations | remotion_deployments.

Definition table_eqb (a b : table) : bool :=
  match a, b with
  | lora_trainings, lora_trainings | json_configs, json_configs
  | image_scores, image_scores | anatomy_validations, anatomy_validations
  | remotion_deployments, remotion_deployments => true
  | _, _ => false
  end.

(** SELECT COUNT of a table. *)
Definition count (t : table) (db : Db.database) : Z :=
  match t with
  | lora_trainings => Z.of_nat (List.length (Db.lora_trainings db))
  | json_configs => Z.of_nat (List.length (Db.json_configs db))
  | image_scores => Z.of_nat (List.length (Db.image_scores db))
  | anatomy_validations => Z.of_nat (List.length (Db.anatomy_validations db))
  | remotion_deployments => Z.of_nat (List.length (Db.remotion_deployments db))
  end.

(** The table a creation route writes to. *)
Definition creates (r : Server.request) : option table :=
  match r with
  | Server.POST_train_lora _ => Some lora_trainings
  | Server.POST_generate_json _ => Some json_configs
  | Server.POST_score_image _ => Some image_scores
  | Server.POST_validate_anatomy _ => Some anatomy_validations
  | Server.POST_deploy_remotion _ => Some remotion_deployments
  | _ => None
  end.

(** Is this call a creation call against the route of [t] that succeeded? *)
Definition created (t : table) (r : Server.request) (res : Res.t) : bool :=
  match creates r with
  | Some t' => table_eqb t t' && (Res.status res =? 200)
  | None => false
  end.

(** The number of successful creation calls against the route of [t] among
    the calls served, each with its response. *)
Fixpoint successes (t : table) (calls : list (Server.runtime * Server.request))
  (responses : list Res.t) : Z :=
  match calls, responses with
  | (_, r) :: calls', res :: responses' =>
    (if created t r res then 1 else 0) + successes t calls' responses'
  | _, _ => 0
  end.

(** The counts a stats body reports, by the table each is taken from. *)
Definition reported_count (t : table) (b : Res.json) : option Z :=
  match b with
  | Res.Stats loraTrainings jsonConfigs imageScores remotionDeployments =>
    match t with
    | lora_trainings => Some loraTrainings
    | json_configs => Some jsonConfigs
    | image_scores => Some imageScores
    | anatomy_validations => None
    | remotion_deployments => Some remotionDeployments
    end
  | _ => None
  end.

(* ===================================================================== *)
(** ** The store over a run of requests                                    *)
(* ===================================================================== *)

(** [t'] is [t] with rows added at its end. *)
Definition grows {R : Type} (t t' : list R) : Prop := exists added : list R, t' = t ++ added.

(** Every table of [db'] is the table of [db] with rows added at its end. *)
Definition extends (db db' : Db.database) : Prop :=
  Db.users db' = Db.users db /\
  grows (Db.lora_trainings db) (Db.lora_trainings db') /\
  grows (Db.json_configs db) (Db.json_configs db') /\
  grows (Db.image_scores db) (Db.image_scores db') /\
  grows (Db.anatomy_validations db) (Db.anatomy_validations db') /\
  grows (Db.remotion_deployments db) (Db.remotion_deployments db').

(** The keys of a table, and its name in the schema. *)
Definition table_ids (t : table) (db : Db.database) : list string :=
  match t with
  | lora_trainings => map LoraTrainings.id (Db.lora_trainings db)
  | json_configs => map JsonConfigs.id (Db.json_configs db)
  | image_scores => map ImageScores.id (Db.image_scores db)
  | anatomy_validations => map AnatomyValidations.id (Db.anatomy_validations db)
  | remotion_deployments => map RemotionDeployments.id (Db.remotion_deployments db)
  end.

Definition table_name (t : table) : string :=
  match t with
  | lora_trainings => "lora_trainings"
  | json_configs => "json_configs"
  | image_scores => "image_scores"
  | anatomy_validations => "anatomy_validations"
  | remotion_deployments => "remotion_deployments"
  end.

(** PRIMARY KEY: no key twice in a table. *)
Definition unique_ids (db : Db.database) : Prop :=
  forall t : table, NoDup (table_ids t db).

(** A few requests, one to each creation route and a poll. *)
Definition a_training : TrainLoraBody.t :=
  {| TrainLoraBody.characterName := Some "Ana"%string; TrainLoraBody.baseModel := None;
     TrainLoraBody.strength := None; TrainLoraBody.epochs := None |}.

Definition a_deployment : DeployRemotionBody.t :=
  {| DeployRemotionBody.jsonConfig :=
       Some {| DeployRemotionBody.id := Some "config-7"%string |};
     DeployRemotionBody.duration := Some 30;
     DeployRemotionBody.effects := None |}.

Definition a_run : list (Server.runtime * Server.request) :=
  [ (fixed_runtime 5000 "job-1" (1 # 2), Server.POST_train_lora a_training);
    (fixed_runtime 6000 "score-1" (1 # 2), Server.POST_score_image an_image);
    (fixed_runtime 7000 "job-1" (1 # 2), Server.POST_train_lora a_training);
    (fixed_runtime 8000 "check-1" (1 # 2), Server.POST_validate_anatomy an_image);
    (fixed_runtime 9000 "job-2" (1 # 2), Server.POST_deploy_remotion a_deployment);
    (fixed_runtime 9500 "config-1" (1 # 2), Server.POST_generate_json required_only);
    (fixed_runtime 9900 "none" (1 # 2), Server.GET_train_lora "job-1") ].

(** The table of a kind of job, and the identifier a creation response
    hands out for polling. *)
Definition job_table (j : Spec.job_type) : table :=
  match j with
  | Spec.Training => lora_trainings
  | Spec.Deployment => remotion_deployments
  end.

Definition started_job (res : Res.t) : option string :=
  match Res.sent res with
  | Res.TrainingStarted jobId _ _ _ _ _ _ _ => Some jobId
  | Res.DeploymentStarted jobId _ _ _ _ _ _ _ => Some jobId
  | _ => None
  end.

(** The labels a creation route writes: a training is stored as
    "training" with progress 0, a deployment as "deploying" with progress 0
    and no URL or path. *)
Definition training_label (r : LoraTrainings.row) : Prop :=
  LoraTrainings.status r = "training"%string /\ LoraTrainings.progress r = 0%Q.

Definition deployment_label (r : RemotionDeployments.row) : Prop :=
  RemotionDeployments.status r = "deploying"%string /\
  RemotionDeployments.progress r = 0%Q /\
  RemotionDeployments.vercelUrl r = None /\
  RemotionDeployments.videoPath r = None.

Definition labelled (db : Db.database) : Prop :=
  Forall training_label (Db.lora_trainings db) /\
  Forall deployment_label (Db.remotion_deployments db).

(** What a stored score and a stored validation satisfy when the draws
    they come from are numbers of the unit interval. *)
Definition score_sound (row : ImageScores.row) : Prop :=
  60 <= ImageScores.drama row <= 90 /\
  65 <= ImageScores.saliency row <= 95 /\
  60 <= ImageScores.emotion row <= 90 /\
  70 <= ImageScores.depth row <= 100 /\
  65 <= ImageScores.signature row <= 95 /\
  ImageScores.total row
    = JS.Math_round
        (inject_Z (ImageScores.drama row + ImageScores.saliency row + ImageScores.emotion row
                   + ImageScores.depth row + ImageScores.signature row) / 5) /\
  64 <= ImageScores.total row <= 94 /\
  ImageScores.feedback row = snd (Server.quality_band (ImageScores.total row)).

Definition validation_sound (row : AnatomyValidations.row) : Prop :=
  85 <= AnatomyValidations.handsScore row <= 95 /\
  88 <= AnatomyValidations.faceScore row <= 98 /\
  82 <= AnatomyValidations.bodyScore row <= 92 /\
  85 <= AnatomyValidations.overallScore row <= 95 /\
  AnatomyValidations.issues row = "[]"%string.

Definition sound_store (db : Db.database) : Prop :=
  Forall score_sound (Db.image_scores db) /\
  Forall validation_sound (Db.anatomy_validations db).

(** Every request of the run gets unit draws. *)
Definition unit_runs (calls : list (Server.runtime * Server.request)) : Prop :=
  Forall (fun c => unit_draws (fst c)) calls.

(** The four bands, from the worst to the best. *)
Definition band_rank (quality : string) : Z :=
  if (quality =? "Excellent")%string then 3
  else if (quality =? "Good")%string then 2
  else if (quality =? "Fair")%string then 1
  else 0.

(** A body of POST /api/generate-json with its empty optional fields left
    out. *)
Definition without_empty (v : option string) : option string :=
  match v with
  | Some EmptyString => None
  | _ => v
  end.

Definition optional_left_out (req : GenerateJsonBody.t) : GenerateJsonBody.t :=
  {| GenerateJsonBody.character := GenerateJsonBody.character req;
     GenerateJsonBody.environment := GenerateJsonBody.environment req;
     GenerateJsonBody.lighting := GenerateJsonBody.lighting req;
     GenerateJsonBody.camera := without_empty (GenerateJsonBody.camera req);
     GenerateJsonBody.style := without_empty (GenerateJsonBody.style req);
     GenerateJsonBody.negativePrompt := without_empty (GenerateJsonBody.negativePrompt req) |}.

(* ===================================================================== *)
(** * Properties                                                           *)
(* ===================================================================== *)

(** ** Rounding *)

Section Rounding.

Local Open Scope Q_scope.

Lemma toFixed2_comp (x y : Q) : x == y -> JS.toFixed2 x = JS.toFixed2 y.
Proof.
  intros E. unfold JS.toFixed2.
  rewrite (Qleb_comp 0 0 (Qeq_refl 0) x y E).
  destruct (Qle_bool 0 y).
  - apply Qfloor_comp. rewrite E. reflexivity.
  - f_equal. apply Qfloor_comp. rewrite E. reflexivity.
Qed.

Lemma parseFloat2_comp (n m : Z) : n = m -> JS.parseFloat2 n == JS.parseFloat2 m.
Proof. intros ->. reflexivity. Qed.

Lemma toFixed2_Z (n : Z) : (0 <= n)%Z -> JS.toFixed2 (inject_Z n) = (n * 100)%Z.
Proof.
  intros Hn. unfold JS.toFixed2.
  assert (H0 : Qle_bool 0 (inject_Z n) = true).
  { apply Qle_bool_iff. unfold Qle, inject_Z. simpl. lia. }
  rewrite H0.
  assert (Hle : inject_Z (n * 100) <= inject_Z n * 100 + (1 # 2)).
  { unfold Qle, inject_Z, Qmult, Qplus. simpl. lia. }
  assert (Hlt : inject_Z n * 100 + (1 # 2) < inject_Z (n * 100 + 1)).
  { unfold Qlt, inject_Z, Qmult, Qplus. simpl. lia. }
  apply Qfloor_resp_le in Hle. rewrite Qfloor_Z in Hle.
  assert (Hlt' : (Qfloor (inject_Z n * 100 + (1 # 2)) < n * 100 + 1)%Z).
  { apply Z.lt_nge. intros Hge.
    assert (K : inject_Z (n * 100 + 1) <= inject_Z n * 100 + (1 # 2)).
    { eapply Qle_trans; [ | apply Qfloor_le ].
      rewrite <- Zle_Qle. exact Hge. }
    apply Qle_not_lt in K. contradiction. }
  lia.
Qed.

Lemma toFixed2_nonneg (x : Q) : 0 <= x -> (0 <= JS.toFixed2 x)%Z.
Proof.
  intros H. unfold JS.toFixed2.
  assert (H0 : Qle_bool 0 x = true) by (apply Qle_bool_iff; exact H).
  rewrite H0.
  change 0%Z with (Qfloor (inject_Z 0)) at 1. rewrite Qfloor_Z.
  rewrite <- (Qfloor_Z 0). apply Qfloor_resp_le.
  setoid_replace (inject_Z 0) with (0 * 100 + 0) by reflexivity.
  apply Qplus_le_compat; [ apply Qmult_le_compat_r; [ exact H | discriminate ] | discriminate ].
Qed.

Lemma toFixed2_le_100 (x : Q) : x <= 100 -> (JS.toFixed2 x <= 10000)%Z.
Proof.
  intros H. unfold JS.toFixed2.
  destruct (Qle_bool 0 x) eqn:E.
  - assert (K : x * 100 + (1 # 2) <= inject_Z 10000 + (1 # 2)).
    { apply Qplus_le_compat; [ | apply Qle_refl ].
      setoid_replace (inject_Z 10000) with (100 * 100) by reflexivity.
      apply Qmult_le_compat_r; [ exact H | discriminate ]. }
    apply Qfloor_resp_le in K.
    assert (F : Qfloor (inject_Z 10000 + (1 # 2)) = 10000%Z) by reflexivity.
    lia.
  - assert (Hneg : ~ 0 <= x).
    { intros C. apply Qle_bool_iff in C. congruence. }
    apply Qnot_le_lt in Hneg.
    assert (K : inject_Z 0 <= - x * 100 + (1 # 2)).
    { setoid_replace (inject_Z 0) with (0 * 100 + 0) by reflexivity.
      apply Qplus_le_compat; [ | discriminate ].
      apply Qmult_le_compat_r; [ | discriminate ].
      apply Qlt_le_weak. rewrite <- (Qopp_involutive 0) in Hneg.
      apply Qopp_lt_compat in Hneg. rewrite Qopp_involutive in Hneg.
      setoid_replace 0 with (- 0) by reflexivity. exact Hneg. }
    apply Qfloor_resp_le in K. rewrite Qfloor_Z in K. lia.
Qed.

End Rounding.

(** ** Progress of a polled job *)

Section Progress.

Local Open Scope Q_scope.

Variable D : Z.
Hypothesis D_pos : (0 < D)%Z.

Lemma percent_nonneg (e : Z) : (0 <= e)%Z -> 0 <= percent D e.
Proof.
  intros He. unfold percent.
  apply Qmult_le_0_compat; [ | discriminate ].
  apply Qle_shift_div_l.
  - change 0 with (inject_Z 0). rewrite <- Zlt_Qlt. exact D_pos.
  - rewrite Qmult_0_l. change 0 with (inject_Z 0). rewrite <- Zle_Qle. exact He.
Qed.

Lemma percent_neg (e : Z) : (e < 0)%Z -> percent D e < 0.
Proof.
  intros He. unfold percent, Qdiv.
  assert (HD : 0 < / inject_Z D).
  { apply Qinv_lt_0_compat. change 0 with (inject_Z 0). rewrite <- Zlt_Qlt. exact D_pos. }
  assert (He' : inject_Z e < 0).
  { change 0 with (inject_Z 0). rewrite <- Zlt_Qlt. exact He. }
  setoid_replace 0 with (0 * / inject_Z D * 100) by ring.
  apply Qmult_lt_compat_r; [ reflexivity | ].
  apply Qmult_lt_compat_r; assumption.
Qed.

Lemma percent_saturated (e : Z) : (D <= e)%Z -> 100 <= percent D e.
Proof.
  intros He. unfold percent.
  setoid_replace 100 with (1 * 100) at 1 by reflexivity.
  apply Qmult_le_compat_r; [ | discriminate ].
  apply Qle_shift_div_l.
  - change 0 with (inject_Z 0). rewrite <- Zlt_Qlt. exact D_pos.
  - rewrite Qmult_1_l. rewrite <- Zle_Qle. exact He.
Qed.

Lemma estimate_le_100 (e : Z) : estimate D e <= 100.
Proof.
  unfold estimate, JS.parseFloat2, JS.Math_min.
  pose proof (toFixed2_le_100 (Qmin 100 (percent D e)) (Q.le_min_l _ _)) as H.
  unfold Qle. simpl. lia.
Qed.

Lemma estimate_clamped (e : Z) : (0 <= e)%Z -> estimate D e = Spec.progress e 0 D.
Proof.
  intros He. unfold estimate, Spec.progress, Spec.clamp, JS.Math_min.
  rewrite Z.sub_0_r. f_equal. apply toFixed2_comp.
  symmetry. apply Q.max_r. apply Q.min_glb; [ discriminate | apply percent_nonneg; exact He ].
Qed.

Lemma estimate_nonneg (e : Z) : (0 <= e)%Z -> 0 <= estimate D e.
Proof.
  intros He. unfold estimate, JS.parseFloat2, JS.Math_min.
  assert (H : (0 <= JS.toFixed2 (Qmin 100 (percent D e)))%Z).
  { apply toFixed2_nonneg. apply Q.min_glb; [ discriminate | apply percent_nonneg; exact He ]. }
  unfold Qle. simpl. lia.
Qed.

Lemma estimate_nonpos (e : Z) : (e < 0)%Z -> estimate D e <= 0.
Proof.
  intros He. unfold estimate, JS.parseFloat2, JS.Math_min.
  assert (Hm : Qmin 100 (percent D e) < 0).
  { eapply Qle_lt_trans; [ apply Q.le_min_r | apply percent_neg; exact He ]. }
  assert (H : (JS.toFixed2 (Qmin 100 (percent D e)) <= 0)%Z).
  { unfold JS.toFixed2.
    destruct (Qle_bool 0 (Qmin 100 (percent D e))) eqn:E.
    - apply Qle_bool_iff in E. apply Qle_not_lt in E. contradiction.
    - assert (K : inject_Z 0 <= - Qmin 100 (percent D e) * 100 + (1 # 2)).
      { setoid_replace (inject_Z 0) with (0 * 100 + 0) by reflexivity.
        apply Qplus_le_compat; [ | discriminate ].
        apply Qmult_le_compat_r; [ | discriminate ].
        apply Qlt_le_weak. apply Qopp_lt_compat in Hm.
        setoid_replace 0 with (- 0) by reflexivity. exact Hm. }
      apply Qfloor_resp_le in K. rewrite Qfloor_Z in K. lia. }
  unfold Qle. simpl. lia.
Qed.

Lemma estimate_start : estimate D 0 == 0.
Proof.
  unfold estimate, JS.Math_min.
  assert (E : Qmin 100 (percent D 0) == 0).
  { unfold percent. rewrite Q.min_r.
    - unfold Qdiv. change (inject_Z 0) with 0. ring.
    - unfold Qdiv. change (inject_Z 0) with 0. rewrite !Qmult_0_l. discriminate. }
  rewrite (toFixed2_comp _ _ E). reflexivity.
Qed.

Lemma estimate_saturated (e : Z) : (D <= e)%Z -> estimate D e == 100.
Proof.
  intros He. unfold estimate, JS.Math_min.
  assert (E : Qmin 100 (percent D e) == 100).
  { apply Q.min_l. apply percent_saturated. exact He. }
  rewrite (toFixed2_comp _ _ E). reflexivity.
Qed.

End Progress.

Lemma expectedDurationMs_pos (j : Spec.job_type) : 0 < Spec.expectedDurationMs j.
Proof. destruct j; reflexivity. Qed.

Lemma spec_progress_shift (now T D : Z) : Spec.progress now T D = Spec.progress (now - T) 0 D.
Proof. unfold Spec.progress. rewrite Z.sub_0_r. reflexivity. Qed.

(** What a poll answers when the job is found: the stored row with the
    estimate in place of its progress. *)
Lemma poll_found (j : Spec.job_type) (rt : Server.runtime) (jobId : string)
  (db : Db.database) (createdAt : Z) :
  created_at j jobId db = Some createdAt ->
  Res.status (fst (poll j rt jobId db)) = 200 /\
  snd (poll j rt jobId db) = db /\
  reported_progress (fst (poll j rt jobId db)) =
    Some (estimate (Spec.expectedDurationMs j)
            (Server.Date_now rt - Server.Date_of createdAt)).
Proof.
  destruct j; simpl; unfold Server.get_train_lora, Server.get_deploy_remotion.
  - destruct (Db.select_by_id LoraTrainings.id jobId (Db.lora_trainings db)) as [r|];
      simpl; [ | discriminate ].
    intros [= <-]. repeat split.
  - destruct (Db.select_by_id RemotionDeployments.id jobId (Db.remotion_deployments db))
      as [r|]; simpl; [ | discriminate ].
    intros [= <-]. repeat split.
Qed.




(** ** The statement of a handler and its outcome *)

Lemma try_run_200 (stmt : Db.statement) (db : Db.database) (ok : Res.json)
  (res : Res.t) (db' : Db.database) :
  Server.try_run stmt db ok = (res, db') ->
  Res.status res = 200 ->
  Db.dbRun stmt db = JS.Resolved db' /\ res = Res.json_ ok.
Proof.
  unfold Server.try_run. destruct (Db.dbRun stmt db) as [d|m]; intros [= <- <-]; simpl.
  - intros _. split; reflexivity.
  - discriminate.
Qed.

Lemma try_run_not_200 (stmt : Db.statement) (db : Db.database) (ok : Res.json)
  (res : Res.t) (db' : Db.database) :
  Server.try_run stmt db ok = (res, db') ->
  Res.status res <> 200 ->
  Res.status res = 500 /\ db' = db.
Proof.
  unfold Server.try_run. destruct (Db.dbRun stmt db) as [d|m]; intros [= <- <-]; simpl.
  - intros H. contradiction H. reflexivity.
  - intros _. split; reflexivity.
Qed.

Lemma add_row_resolved {R : Type} (key : R -> string) (name : string) (r : R)
  (t t' : list R) :
  Db.add_row key name r t = JS.Resolved t' -> t' = t ++ [r].
Proof.
  unfold Db.add_row. destruct (Db.has_id key (key r) t); [ discriminate | ].
  intros [= <-]. reflexivity.
Qed.

(** ** Rounding to the nearest integer *)

Section MathRound.

Local Open Scope Q_scope.

(** [Math.round(Math.random() * k + b)] lies in [b, b + k]. *)
Lemma Math_round_draw (r : Q) (k b : Z) :
  (0 < k)%Z -> 0 <= r -> r < 1 ->
  (b <= JS.Math_round (r * inject_Z k + inject_Z b) <= b + k)%Z.
Proof.
  intros Hk H0 H1. unfold JS.Math_round.
  assert (Hk' : 0 < inject_Z k).
  { change 0 with (inject_Z 0). rewrite <- Zlt_Qlt. exact Hk. }
  split.
  - rewrite <- (Qfloor_Z b) at 1. apply Qfloor_resp_le.
    setoid_replace (inject_Z b) with (0 + inject_Z b + 0) at 1 by ring.
    apply Qplus_le_compat; [ | discriminate ].
    apply Qplus_le_compat; [ | apply Qle_refl ].
    apply Qmult_le_0_compat; [ exact H0 | apply Qlt_le_weak; exact Hk' ].
  - apply Z.lt_succ_r. unfold Z.succ.
    rewrite Zlt_Qlt.
    eapply Qle_lt_trans; [ apply Qfloor_le | ].
    rewrite !inject_Z_plus.
    setoid_replace (inject_Z b + inject_Z k + inject_Z 1)
      with (1 * inject_Z k + inject_Z b + 1) by (change (inject_Z 1) with 1; ring).
    apply Qplus_lt_le_compat; [ | discriminate ].
    apply Qplus_lt_le_compat; [ | apply Qle_refl ].
    apply Qmult_lt_compat_r; assumption.
Qed.

(** [Math.round(s / n)] of integers, by integer division. *)
Lemma Math_round_mean (s n : Z) :
  (0 < n)%Z -> JS.Math_round (inject_Z s / inject_Z n) = ((2 * s + n) / (2 * n))%Z.
Proof.
  intros Hn. unfold JS.Math_round. rewrite Zdiv_Qdiv. apply Qfloor_comp.
  assert (Hn' : ~ inject_Z n == 0).
  { intros E. unfold Qeq in E. simpl in E. lia. }
  rewrite !inject_Z_plus, !inject_Z_mult.
  change (inject_Z 2) with 2. field. exact Hn'.
Qed.

(** The mean rounded is the integer nearest to the mean, a tie going up. *)
Lemma Math_round_mean_nearest (s n : Z) :
  (0 < n)%Z ->
  let m := JS.Math_round (inject_Z s / inject_Z n) in
  (2 * n * m - n <= 2 * s < 2 * n * m + n)%Z.
Proof.
  intros Hn m. subst m. rewrite (Math_round_mean s n Hn).
  pose proof (Z.div_mod (2 * s + n) (2 * n) ltac:(lia)) as E.
  pose proof (Z.mod_pos_bound (2 * s + n) (2 * n) ltac:(lia)) as B.
  lia.
Qed.

End MathRound.

(** ** Image scores *)

(** A scoring that succeeds stores one row and reports it, with the band of
    its total. *)
Lemma post_score_image_200 (rt : Server.runtime) (req : ImageBody.t) (db db' : Db.database)
  (res : Res.t) :
  Server.post_score_image rt req db = (res, db') ->
  Res.status res = 200 ->
  exists row : ImageScores.row,
    Db.image_scores db' = Db.image_scores db ++ [row] /\
    res = Res.json_
            (Res.ImageScored (ImageScores.id row) (ImageScores.imageUrl row)
               (ImageScores.drama row) (ImageScores.saliency row) (ImageScores.emotion row)
               (ImageScores.depth row) (ImageScores.signature row) (ImageScores.total row)
               (fst (Server.quality_band (ImageScores.total row)))
               (snd (Server.quality_band (ImageScores.total row)))
               [ "Increase contrast for more drama"; "Add focal point for better saliency";
                 "Layer composition for depth" ]%string) /\
    ImageScores.feedback row = snd (Server.quality_band (ImageScores.total row)) /\
    ImageScores.drama row = JS.Math_round (Server.Math_random rt 0 * 30 + 60) /\
    ImageScores.saliency row = JS.Math_round (Server.Math_random rt 1 * 30 + 65) /\
    ImageScores.emotion row = JS.Math_round (Server.Math_random rt 2 * 30 + 60) /\
    ImageScores.depth row = JS.Math_round (Server.Math_random rt 3 * 30 + 70) /\
    ImageScores.signature row = JS.Math_round (Server.Math_random rt 4 * 30 + 65) /\
    ImageScores.total row =
      JS.Math_round
        (inject_Z (ImageScores.drama row + ImageScores.saliency row + ImageScores.emotion row
                   + ImageScores.depth row + ImageScores.signature row) / 5).
Proof.
  unfold Server.post_score_image.
  destruct (JS.truthy (ImageBody.imageUrl req)) as [url|]; [ | intros [= <- <-]; discriminate ].
  cbv zeta.
  destruct (Server.quality_band _) as [quality feedback] eqn:B.
  intros Hrun Hs. destruct (try_run_200 _ _ _ _ _ Hrun Hs) as [Hdb ->].
  simpl in Hdb.
  destruct (Db.add_row ImageScores.id "image_scores" _ (Db.image_scores db)) as [t|m] eqn:A;
    [ | discriminate ].
  apply add_row_resolved in A. injection Hdb as <-. simpl.
  eexists. split; [ exact A | ]. simpl. rewrite B. simpl.
  repeat split; reflexivity.
Qed.

(** C2: the band of a rounded total t of [0, 100] that POST /api/score-image
    answers is fixed by thresholds: Excellent from 85 on, Good from 75 to 84,
    Fair from 60 to 74, Weak up to 59, each with its own feedback text; so
    85 is Excellent, 84 and 75 are Good, 74 and 60 are Fair, 59 is Weak. *)
Theorem score_image_banding (t : Z) :
  0 <= t <= 100 ->
  (forall rt req db id url d s e dp sg q f sug,
      Res.sent (fst (Server.post_score_image rt req db))
        = Res.ImageScored id url d s e dp sg t q f sug ->
      (q, f) = Server.quality_band t) /\
  (85 <= t ->
   Server.quality_band t
     = ("Excellent", "Masterpiece level! All dimensions are outstanding.")%string) /\
  (75 <= t <= 84 ->
   Server.quality_band t
     = ("Good", "Consider: enhance saliency, add depth, improve drama")%string) /\
  (60 <= t <= 74 ->
   Server.quality_band t = ("Fair", "Work on composition, lighting, and focus")%string) /\
  (t <= 59 ->
   Server.quality_band t = ("Weak", "Major improvements needed in multiple areas")%string) /\
  fst (Server.quality_band 85) = "Excellent"%string /\
  fst (Server.quality_band 84) = "Good"%string /\
  fst (Server.quality_band 75) = "Good"%string /\
  fst (Server.quality_band 74) = "Fair"%string /\
  fst (Server.quality_band 60) = "Fair"%string /\
  fst (Server.quality_band 59) = "Weak"%string.
Proof.
  intros _. split.
  { intros rt req db id url d s e dp sg q f sug.
    unfold Server.post_score_image.
    destruct (JS.truthy (ImageBody.imageUrl req)) as [u|]; [ | discriminate ].
    cbv zeta. destruct (Server.quality_band _) as [quality feedback] eqn:B.
    unfold Server.try_run. destruct (Db.dbRun _ db); simpl; [ | discriminate ].
    intros H. injection H as _ _ _ _ _ _ _ Ht Hq Hf _. subst. symmetry. exact B. }
  unfold Server.quality_band.
  repeat split; try reflexivity; intros H.
  - destruct (Z.geb_spec t 85) as [_|C]; [ reflexivity | lia ].
  - destruct (Z.geb_spec t 85) as [C|_]; [ lia | ].
    destruct (Z.geb_spec t 75) as [_|C]; [ reflexivity | lia ].
  - destruct (Z.geb_spec t 85) as [C|_]; [ lia | ].
    destruct (Z.geb_spec t 75) as [C|_]; [ lia | ].
    destruct (Z.geb_spec t 60) as [_|C]; [ reflexivity | lia ].
  - destruct (Z.geb_spec t 85) as [C|_]; [ lia | ].
    destruct (Z.geb_spec t 75) as [C|_]; [ lia | ].
    destruct (Z.geb_spec t 60) as [C|_]; [ lia | reflexivity ].
Qed.

(** A total of 84 is Good. *)
Lemma score_image_banding_witness :
  Server.quality_band 84
    = ("Good", "Consider: enhance saliency, add depth, improve drama")%string.
Proof.
  refine (proj1 (proj2 (proj2 (score_image_banding 84 _))) _); lia.
Defined.

Lemma fixed_runtime_unit_draws (now : Z) (id : string) (r : Q) :
  (0 <= r)%Q -> (r < 1)%Q -> unit_draws (fixed_runtime now id r).
Proof. intros H0 H1 n. simpl. split; assumption. Qed.

(** C10: for every outcome of the draws of POST /api/score-image, the five
    dimensions lie in their intervals (drama and emotion in [60, 90],
    saliency and signature in [65, 95], depth in [70, 100]) and the rounded
    total lies in [64, 94]; so the band is never Weak and its feedback is
    never the text of Weak, while Excellent, Good and Fair are each answered
    for some outcome of the draws. *)
Theorem score_image_total_range (rt : Server.runtime) (req : ImageBody.t)
  (db db' : Db.database) (res : Res.t) :
  unit_draws rt ->
  Server.post_score_image rt req db = (res, db') ->
  Res.status res = 200 ->
  (exists (row : ImageScores.row) (quality feedback : string) (suggestions : list string),
      Db.image_scores db' = Db.image_scores db ++ [row] /\
      Res.sent res =
        Res.ImageScored (ImageScores.id row) (ImageScores.imageUrl row)
          (ImageScores.drama row) (ImageScores.saliency row) (ImageScores.emotion row)
          (ImageScores.depth row) (ImageScores.signature row) (ImageScores.total row)
          quality feedback suggestions /\
      60 <= ImageScores.drama row <= 90 /\
      65 <= ImageScores.saliency row <= 95 /\
      60 <= ImageScores.emotion row <= 90 /\
      70 <= ImageScores.depth row <= 100 /\
      65 <= ImageScores.signature row <= 95 /\
      64 <= ImageScores.total row <= 94 /\
      quality <> "Weak"%string /\
      feedback <> "Major improvements needed in multiple areas"%string /\
      ImageScores.feedback row = feedback /\
      In quality [ "Excellent"; "Good"; "Fair" ]%string) /\
  (forall quality : string,
      In quality [ "Excellent"; "Good"; "Fair" ]%string ->
      exists rt' : Server.runtime,
        unit_draws rt' /\
        exists id url d s e dp sg t f sug,
          fst (Server.post_score_image rt' an_image Db.empty)
            = Res.json_ (Res.ImageScored id url d s e dp sg t quality f sug)).
Proof.
  intros Hr Hrun Hs. split.
  - destruct (post_score_image_200 rt req db db' res Hrun Hs)
      as (row & Hdb & -> & Hfb & Hd & Hsa & He & Hdp & Hsg & Ht).
    pose proof (Math_round_draw (Server.Math_random rt 0) 30 60 ltac:(lia)
                  (proj1 (Hr 0%nat)) (proj2 (Hr 0%nat))) as B0.
    pose proof (Math_round_draw (Server.Math_random rt 1) 30 65 ltac:(lia)
                  (proj1 (Hr 1%nat)) (proj2 (Hr 1%nat))) as B1.
    pose proof (Math_round_draw (Server.Math_random rt 2) 30 60 ltac:(lia)
                  (proj1 (Hr 2%nat)) (proj2 (Hr 2%nat))) as B2.
    pose proof (Math_round_draw (Server.Math_random rt 3) 30 70 ltac:(lia)
                  (proj1 (Hr 3%nat)) (proj2 (Hr 3%nat))) as B3.
    pose proof (Math_round_draw (Server.Math_random rt 4) 30 65 ltac:(lia)
                  (proj1 (Hr 4%nat)) (proj2 (Hr 4%nat))) as B4.
    change (inject_Z 30) with 30%Q in *.
    change (inject_Z 60) with 60%Q in *. change (inject_Z 65) with 65%Q in *.
    change (inject_Z 70) with 70%Q in *.
    rewrite <- Hd in B0. rewrite <- Hsa in B1. rewrite <- He in B2.
    rewrite <- Hdp in B3. rewrite <- Hsg in B4.
    change 5%Q with (inject_Z 5) in Ht. rewrite Math_round_mean in Ht by lia.
    assert (Htot : 64 <= ImageScores.total row <= 94).
    { rewrite Ht. split.
      - apply Z.div_le_lower_bound; lia.
      - apply Z.lt_succ_r. apply Z.div_lt_upper_bound; lia. }
    exists row. do 3 eexists.
    split; [ exact Hdb | ]. split; [ reflexivity | ].
    repeat (split; [ lia | ]).
    unfold Server.quality_band.
    destruct (Z.geb_spec (ImageScores.total row) 85);
      [ | destruct (Z.geb_spec (ImageScores.total row) 75);
          [ | destruct (Z.geb_spec (ImageScores.total row) 60); [ | lia ] ] ];
      simpl; (split; [ discriminate | ]); (split; [ discriminate | ]);
      (split; [ rewrite Hfb; unfold Server.quality_band;
                repeat match goal with
                       | |- context [ ?a >=? ?b ] => destruct (Z.geb_spec a b); try lia
                       end; reflexivity | ]);
      auto.
  - intros quality [<- | [<- | [<- | []]]].
    + exists (fixed_runtime 0 "score-1" (9 # 10)).
      split; [ apply fixed_runtime_unit_draws; reflexivity || discriminate | ].
      do 10 eexists. vm_compute. reflexivity.
    + exists (fixed_runtime 0 "score-1" (1 # 2)).
      split; [ apply fixed_runtime_unit_draws; reflexivity || discriminate | ].
      do 10 eexists. vm_compute. reflexivity.
    + exists (fixed_runtime 0 "score-1" 0%Q).
      split; [ apply fixed_runtime_unit_draws; reflexivity || discriminate | ].
      do 10 eexists. vm_compute. reflexivity.
Qed.

(** A scoring on the empty database, every draw being 1/2. *)
Lemma score_image_total_range_witness :
  exists row : ImageScores.row,
    Db.image_scores (snd (Server.post_score_image (fixed_runtime 0 "score-1" (1 # 2))
                            an_image Db.empty)) = [ row ] /\
    64 <= ImageScores.total row <= 94.
Proof.
  destruct (score_image_total_range (fixed_runtime 0 "score-1" (1 # 2)) an_image Db.empty
              (snd (Server.post_score_image (fixed_runtime 0 "score-1" (1 # 2))
                      an_image Db.empty))
              (fst (Server.post_score_image (fixed_runtime 0 "score-1" (1 # 2))
                      an_image Db.empty))
              (fixed_runtime_unit_draws 0 "score-1" (1 # 2) ltac:(discriminate)
                 ltac:(reflexivity))
              (surjective_pairing _) eq_refl)
    as [(row & q & f & sug & Hdb & _ & _ & _ & _ & _ & _ & Ht & _) _].
  exists row. split; [ exact Hdb | exact Ht ].
Defined.

(** ** Anatomy validations *)

(** A validation that succeeds stores one row and reports it. *)
Lemma post_validate_anatomy_200 (rt : Server.runtime) (req : ImageBody.t)
  (db db' : Db.database) (res : Res.t) :
  Server.post_validate_anatomy rt req db = (res, db') ->
  Res.status res = 200 ->
  exists row : AnatomyValidations.row,
    let hs := AnatomyValidations.handsScore row in
    let fs := AnatomyValidations.faceScore row in
    let bs := AnatomyValidations.bodyScore row in
    let overall := AnatomyValidations.overallScore row in
    Db.anatomy_validations db' = Db.anatomy_validations db ++ [row] /\
    hs = JS.Math_round (Server.Math_random rt 0 * 10 + 85) /\
    fs = JS.Math_round (Server.Math_random rt 1 * 10 + 88) /\
    bs = JS.Math_round (Server.Math_random rt 2 * 10 + 82) /\
    overall = JS.Math_round (inject_Z (hs + fs + bs) / 3) /\
    AnatomyValidations.issues row =
      JSON.stringify_array
        (if overall <? 85 then [ "Consider hand pose"; "Adjust shoulder width" ]%string
         else []) /\
    Res.sent res =
      Res.AnatomyValidated (AnatomyValidations.id row) (AnatomyValidations.imageUrl row)
        {| Res.hands_detected := true; Res.hands_quality := hs;
           Res.hands_issues := if hs <? 90 then [ "Finger positioning"%string ] else [];
           Res.hands_status := if hs >=? 90 then "Perfect" else "Good" |}
        {| Res.face_detected := true; Res.face_symmetry := fs;
           Res.face_proportions := "Correct";
           Res.face_status := if fs >=? 90 then "Symmetric" else "Acceptable" |}
        {| Res.body_detected := true; Res.body_posture := "Natural";
           Res.body_proportions := "Proportional";
           Res.body_status := if bs >=? 90 then "Perfect" else "Good" |}
        overall
        (if overall >=? 90 then "Excellent anatomy! ✅"
         else "Good anatomy. Minor adjustments possible.")%string.
Proof.
  unfold Server.post_validate_anatomy.
  destruct (JS.truthy (ImageBody.imageUrl req)) as [url|]; [ | intros [= <- <-]; discriminate ].
  cbv zeta.
  intros Hrun Hs. destruct (try_run_200 _ _ _ _ _ Hrun Hs) as [Hdb ->].
  simpl in Hdb.
  destruct (Db.add_row AnatomyValidations.id "anatomy_validations" _
              (Db.anatomy_validations db)) as [t|m] eqn:A; [ | discriminate ].
  apply add_row_resolved in A. injection Hdb as <-. simpl.
  eexists. split; [ exact A | ]. simpl.
  repeat split; reflexivity.
Qed.

(** C5: a validation that succeeds has as its overall score the mean of
    its hands, face and body scores rounded to the nearest integer; its
    verdict is the Excellent one exactly when the overall score is at least
    90 and the Good one otherwise; the issue list it stores is not empty
    only when the overall score is below 85; and the status and issues of
    each region follow from the score of that region alone, compared with
    90. *)
Theorem validate_anatomy_verdict (rt : Server.runtime) (req : ImageBody.t)
  (db db' : Db.database) (res : Res.t) :
  Server.post_validate_anatomy rt req db = (res, db') ->
  Res.status res = 200 ->
  exists (row : AnatomyValidations.row) (h : Res.hands) (f : Res.face) (b : Res.body)
         (verdict : string),
    let hs := AnatomyValidations.handsScore row in
    let fs := AnatomyValidations.faceScore row in
    let bs := AnatomyValidations.bodyScore row in
    let overall := AnatomyValidations.overallScore row in
    Db.anatomy_validations db' = Db.anatomy_validations db ++ [row] /\
    Res.sent res =
      Res.AnatomyValidated (AnatomyValidations.id row) (AnatomyValidations.imageUrl row)
        h f b overall verdict /\
    overall = JS.Math_round (inject_Z (hs + fs + bs) / 3) /\
    6 * overall - 3 <= 2 * (hs + fs + bs) < 6 * overall + 3 /\
    (verdict = "Excellent anatomy! ✅"%string <-> 90 <= overall) /\
    (verdict = "Good anatomy. Minor adjustments possible."%string <-> overall < 90) /\
    (AnatomyValidations.issues row <> JSON.stringify_array [] -> overall < 85) /\
    (overall < 85 ->
     AnatomyValidations.issues row
       = JSON.stringify_array [ "Consider hand pose"; "Adjust shoulder width" ]%string) /\
    Res.hands_quality h = hs /\
    Res.hands_status h = (if hs >=? 90 then "Perfect" else "Good")%string /\
    Res.hands_issues h = (if hs <? 90 then [ "Finger positioning"%string ] else []) /\
    Res.face_symmetry f = fs /\
    Res.face_status f = (if fs >=? 90 then "Symmetric" else "Acceptable")%string /\
    Res.body_status b = (if bs >=? 90 then "Perfect" else "Good")%string.
Proof.
  intros Hrun Hs.
  destruct (post_validate_anatomy_200 rt req db db' res Hrun Hs)
    as (row & Hdb & Hh & Hf & Hb & Ho & Hi & Hres).
  exists row. do 4 eexists. cbv zeta.
  split; [ exact Hdb | ]. split; [ exact Hres | ].
  split; [ exact Ho | ].
  split.
  { pose proof (Math_round_mean_nearest
                  (AnatomyValidations.handsScore row + AnatomyValidations.faceScore row
                   + AnatomyValidations.bodyScore row) 3 ltac:(lia)) as N.
    cbv zeta in N. change (inject_Z 3) with 3%Q in N. rewrite <- Ho in N. lia. }
  split.
  { destruct (Z.geb_spec (AnatomyValidations.overallScore row) 90) as [L|L]; split; intros H;
      try reflexivity; try lia; discriminate H. }
  split.
  { destruct (Z.geb_spec (AnatomyValidations.overallScore row) 90) as [L|L]; split; intros H;
      try reflexivity; try lia; discriminate H. }
  split.
  { rewrite Hi. destruct (Z.ltb_spec (AnatomyValidations.overallScore row) 85) as [L|L];
      intros H; [ assumption | contradiction H; reflexivity ]. }
  split.
  { rewrite Hi. destruct (Z.ltb_spec (AnatomyValidations.overallScore row) 85) as [L|L];
      intros H; [ reflexivity | lia ]. }
  repeat split.
Qed.

(** A validation on the empty database, every draw being 1/2. *)
Lemma validate_anatomy_verdict_witness :
  exists (row : AnatomyValidations.row),
    Db.anatomy_validations
      (snd (Server.post_validate_anatomy (fixed_runtime 0 "check-1" (1 # 2))
              an_image Db.empty)) = [ row ] /\
    AnatomyValidations.overallScore row
      = JS.Math_round
          (inject_Z (AnatomyValidations.handsScore row + AnatomyValidations.faceScore row
                     + AnatomyValidations.bodyScore row) / 3).
Proof.
  destruct (validate_anatomy_verdict (fixed_runtime 0 "check-1" (1 # 2)) an_image Db.empty
              (snd (Server.post_validate_anatomy (fixed_runtime 0 "check-1" (1 # 2))
                      an_image Db.empty))
              (fst (Server.post_validate_anatomy (fixed_runtime 0 "check-1" (1 # 2))
                      an_image Db.empty))
              (surjective_pairing _) eq_refl)
    as (row & h & f & b & v & Hdb & _ & Ho & _).
  exists row. split; [ exact Hdb | exact Ho ].
Defined.



(** ** JSON: what is quoted parses back *)

Section JsonRoundTrip.

Local Open Scope string_scope.
Local Open Scope nat_scope.

Lemma string_app_assoc (a b c : string) : (a ++ b) ++ c = a ++ (b ++ c).
Proof. induction a as [|x a IH]; simpl; [ reflexivity | rewrite IH; reflexivity ]. Qed.

Lemma string_length_app (a b : string) :
  String.length (a ++ b) = String.length a + String.length b.
Proof. induction a as [|x a IH]; simpl; [ reflexivity | rewrite IH; reflexivity ]. Qed.

(** One character: its escape, read back, is the character. *)
Lemma parse_quote_char (c : ascii) (tail : string) :
  JSON.parse_chars (JSON.quote_char c ++ tail)
    = JSON.prepend (String c EmptyString) (JSON.parse_chars tail).
Proof.
  destruct c as [[] [] [] [] [] [] [] []]; reflexivity.
Qed.

Lemma parse_chars_closing (rest : string) :
  JSON.parse_chars (String JSON.dquote rest) = Some (EmptyString, rest).
Proof. reflexivity. Qed.

Lemma parse_quote_chars (s rest : string) :
  JSON.parse_chars (JSON.quote_chars s ++ String JSON.dquote rest) = Some (s, rest).
Proof.
  induction s as [|c s IH].
  - apply parse_chars_closing.
  - change (JSON.quote_chars (String c s))
      with (JSON.quote_char c ++ JSON.quote_chars s).
    rewrite string_app_assoc, parse_quote_char, IH. reflexivity.
Qed.

Lemma parse_string_quote (s rest : string) :
  JSON.parse_string (JSON.quote s ++ rest) = Some (s, rest).
Proof.
  unfold JSON.quote, JSON.parse_string.
  change (String JSON.dquote (JSON.quote_chars s ++ String JSON.dquote EmptyString) ++ rest)
    with (String JSON.dquote
            ((JSON.quote_chars s ++ String JSON.dquote EmptyString) ++ rest)).
  rewrite string_app_assoc.
  change (String JSON.dquote EmptyString ++ rest) with (String JSON.dquote rest).
  change (JSON.skip_ws (String JSON.dquote (JSON.quote_chars s ++ String JSON.dquote rest)))
    with (String JSON.dquote (JSON.quote_chars s ++ String JSON.dquote rest)).
  change (N.eqb (N_of_ascii JSON.dquote) 34) with true. cbv iota.
  apply parse_quote_chars.
Qed.

(** One member and what follows it. *)
Lemma parse_members_step (fuel : nat) (k v tail : string) (acc : JSON.object) :
  JSON.parse_members (S fuel) (JSON.member (k, v) ++ tail) acc
    = match JSON.skip_ws tail with
      | String sep rest =>
        if (N_of_ascii sep =? 44)%N then JSON.parse_members fuel rest (JSON.set_member k v acc)
        else if (N_of_ascii sep =? 125)%N then Some (JSON.set_member k v acc, rest)
        else None
      | EmptyString => None
      end.
Proof.
  unfold JSON.member. cbn [fst snd JSON.parse_members].
  rewrite string_app_assoc, parse_string_quote.
  change (String ":" (JSON.quote v) ++ tail) with (String ":" (JSON.quote v ++ tail)).
  change (JSON.skip_ws (String ":" (JSON.quote v ++ tail)))
    with (String ":" (JSON.quote v ++ tail)).
  change (N.eqb (N_of_ascii ":") 58) with true. cbv iota.
  rewrite parse_string_quote. reflexivity.
Qed.

Lemma parse_members_all (o : JSON.object) :
  forall (kv : string * string) (acc : JSON.object) (rest : string) (fuel : nat),
    List.length (kv :: o) <= fuel ->
    JSON.parse_members fuel (JSON.members (kv :: o) ++ String "}" rest) acc
      = Some (set_all (kv :: o) acc, rest).
Proof.
  induction o as [|kv2 o IH]; intros [k v] acc rest fuel Hfuel;
    (destruct fuel as [|fuel]; [ simpl in Hfuel; lia | ]).
  - cbn [JSON.members]. rewrite parse_members_step. reflexivity.
  - change (JSON.members ((k, v) :: kv2 :: o))
      with (JSON.member (k, v) ++ String "," (JSON.members (kv2 :: o))).
    rewrite string_app_assoc, parse_members_step.
    change (String "," (JSON.members (kv2 :: o)) ++ String "}" rest)
      with (String "," (JSON.members (kv2 :: o) ++ String "}" rest)).
    change (JSON.skip_ws (String "," (JSON.members (kv2 :: o) ++ String "}" rest)))
      with (String "," (JSON.members (kv2 :: o) ++ String "}" rest)).
    change (N.eqb (N_of_ascii ",") 44) with true. cbv iota.
    rewrite IH by (simpl in *; lia). reflexivity.
Qed.

Lemma set_member_fresh (k v : string) (acc : JSON.object) :
  ~ In k (map fst acc) -> JSON.set_member k v acc = (acc ++ [(k, v)])%list.
Proof.
  induction acc as [|[k' v'] acc IH]; intros Hk; simpl.
  - reflexivity.
  - destruct (String.eqb_spec k' k) as [E|_].
    + contradiction Hk. left. exact E.
    + rewrite IH; [ reflexivity | ]. intros C. apply Hk. right. exact C.
Qed.

Lemma set_all_fresh (o : JSON.object) :
  forall acc : JSON.object,
    NoDup (map fst (acc ++ o)%list) -> set_all o acc = (acc ++ o)%list.
Proof.
  induction o as [|[k v] o IH]; intros acc Hnd; unfold set_all; simpl.
  - rewrite app_nil_r. reflexivity.
  - fold (set_all o (JSON.set_member k v acc)).
    assert (Hk : ~ In k (map fst acc)).
    { rewrite map_app in Hnd. simpl in Hnd. apply NoDup_remove_2 in Hnd.
      intros C. apply Hnd. apply in_or_app. left. exact C. }
    rewrite (set_member_fresh k v acc Hk).
    rewrite IH; rewrite <- app_assoc; simpl; [ reflexivity | exact Hnd ].
Qed.

Lemma members_opens (kv : string * string) (o : JSON.object) :
  exists t : string, JSON.members (kv :: o) = String JSON.dquote t.
Proof. destruct o; eexists; reflexivity. Qed.

Lemma members_length (o : JSON.object) : List.length o <= String.length (JSON.members o).
Proof.
  induction o as [|kv o IH]; [ apply le_n | ].
  destruct o as [|kv2 o].
  - simpl. lia.
  - change (JSON.members (kv :: kv2 :: o))
      with (JSON.member kv ++ String "," (JSON.members (kv2 :: o))).
    rewrite string_length_app. simpl in *. lia.
Qed.

(** An object with distinct keys, serialized and parsed, is the object. *)
Lemma parse_stringify (o : JSON.object) :
  NoDup (map fst o) -> JSON.parse (JSON.stringify o) = Some o.
Proof.
  intros Hnd. destruct o as [|kv o]; [ reflexivity | ].
  unfold JSON.parse.
  set (fuel := String.length (JSON.stringify (kv :: o))).
  assert (Hfuel : List.length (kv :: o) <= fuel).
  { subst fuel. unfold JSON.stringify. cbn [String.length].
    rewrite string_length_app. pose proof (members_length (kv :: o)). lia. }
  unfold JSON.stringify.
  change (JSON.skip_ws (String "{" (JSON.members (kv :: o) ++ String "}" "")))
    with (String "{" (JSON.members (kv :: o) ++ String "}" "")).
  change (N.eqb (N_of_ascii "{") 123) with true. cbv iota.
  rewrite (parse_members_all o kv [] "" fuel Hfuel).
  destruct (members_opens kv o) as [t ->].
  change (JSON.skip_ws (String JSON.dquote t ++ String "}" ""))
    with (String JSON.dquote (t ++ String "}" "")).
  change (N.eqb (N_of_ascii JSON.dquote) 125) with false. cbv iota.
  rewrite (set_all_fresh (kv :: o) [] Hnd). reflexivity.
Qed.

End JsonRoundTrip.

(** ** Composed configurations *)



(** ** The most recent scores *)

Lemma insert_desc_perm (r : ImageScores.row) (l : list ImageScores.row) :
  Permutation (Db.insert_desc r l) (r :: l).
Proof.
  induction l as [|x l IH]; simpl.
  - apply Permutation_refl.
  - destruct (ImageScores.createdAt x <=? ImageScores.createdAt r).
    + apply Permutation_refl.
    + apply perm_trans with (x :: r :: l).
      * apply perm_skip. exact IH.
      * apply perm_swap.
Qed.

Lemma order_by_createdAt_desc_perm (t : list ImageScores.row) :
  Permutation (Db.order_by_createdAt_desc t) t.
Proof.
  induction t as [|r t IH]; simpl.
  - apply Permutation_refl.
  - apply perm_trans with (r :: Db.order_by_createdAt_desc t).
    + apply insert_desc_perm.
    + apply perm_skip. exact IH.
Qed.

Lemma insert_desc_sorted (r : ImageScores.row) (l : list ImageScores.row) :
  StronglySorted newer_first l -> StronglySorted newer_first (Db.insert_desc r l).
Proof.
  induction 1 as [|x l Hl IH Hx]; simpl.
  - constructor; constructor.
  - destruct (Z.leb_spec (ImageScores.createdAt x) (ImageScores.createdAt r)) as [L|L].
    + constructor; [ constructor; assumption | ].
      constructor; [ unfold newer_first; lia | ].
      eapply Forall_impl; [ | exact Hx ].
      unfold newer_first. intros y Hy. lia.
    + constructor; [ exact IH | ].
      apply (Permutation_Forall (Permutation_sym (insert_desc_perm r l))).
      constructor; [ unfold newer_first; lia | exact Hx ].
Qed.

Lemma order_by_createdAt_desc_sorted (t : list ImageScores.row) :
  StronglySorted newer_first (Db.order_by_createdAt_desc t).
Proof.
  induction t as [|r t IH]; simpl.
  - constructor.
  - apply insert_desc_sorted. exact IH.
Qed.

Lemma StronglySorted_split {A : Type} (R : A -> A -> Prop) (l1 l2 : list A) :
  StronglySorted R (l1 ++ l2) ->
  StronglySorted R l1 /\ forall x y, In x l1 -> In y l2 -> R x y.
Proof.
  induction l1 as [|a l1 IH]; simpl; intros H.
  - split; [ constructor | intros x y [] ].
  - inversion H as [|? ? Hs Hf]; subst.
    destruct (IH Hs) as [S1 C]. split.
    + constructor; [ exact S1 | ].
      apply Forall_forall. intros z Hz. rewrite Forall_forall in Hf.
      apply Hf. apply in_or_app. left. exact Hz.
    + intros x y [<- | Hx] Hy.
      * rewrite Forall_forall in Hf. apply Hf. apply in_or_app. right. exact Hy.
      * apply C; assumption.
Qed.

(** C8, as the code has it: GET /api/scores answers the score records of
    the store that are the 10 most recent, newest first (all of them when
    the store holds fewer), together with a total that is the number of
    records in the answer, that is the smaller of 10 and the count of the
    store; the total is the count of the store when that count is at most
    10. *)
Theorem get_scores_recent (db : Db.database) :
  exists (scores older : list ImageScores.row) (total : Z),
    Server.get_scores db = (Res.json_ (Res.Scores scores total), db) /\
    StronglySorted newer_first scores /\
    Permutation (scores ++ older) (Db.image_scores db) /\
    (forall x y, In x scores -> In y older -> newer_first x y) /\
    List.length scores = Nat.min 10 (List.length (Db.image_scores db)) /\
    total = Z.of_nat (List.length scores) /\
    total = Z.min 10 (Z.of_nat (List.length (Db.image_scores db))) /\
    (Z.of_nat (List.length (Db.image_scores db)) <= 10 ->
     total = Z.of_nat (List.length (Db.image_scores db))).
Proof.
  set (sorted := Db.order_by_createdAt_desc (Db.image_scores db)).
  pose proof (order_by_createdAt_desc_sorted (Db.image_scores db)) as Hs. fold sorted in Hs.
  pose proof (order_by_createdAt_desc_perm (Db.image_scores db)) as Hp. fold sorted in Hp.
  rewrite <- (firstn_skipn 10 sorted) in Hs, Hp.
  destruct (StronglySorted_split _ _ _ Hs) as [S1 C].
  assert (Hlen : List.length (firstn 10 sorted)
                 = Nat.min 10 (List.length (Db.image_scores db))).
  { rewrite length_firstn. f_equal. subst sorted.
    apply Permutation_length. apply order_by_createdAt_desc_perm. }
  exists (firstn 10 sorted), (skipn 10 sorted), (Z.of_nat (List.length (firstn 10 sorted))).
  split; [ reflexivity | ]. split; [ exact S1 | ]. split; [ exact Hp | ].
  split; [ exact C | ]. split; [ exact Hlen | ]. split; [ reflexivity | ].
  rewrite Hlen. split; [ lia | lia ].
Qed.

(** C8 as stated fails: with 11 score records in the store, the total that
    GET /api/scores answers is 10, the number of records in the answer, not
    the count of the store. *)
Lemma get_scores_total_capped :
  Z.of_nat (List.length (Db.image_scores eleven_scores)) = 11 /\
  exists scores : list ImageScores.row,
    Server.get_scores eleven_scores = (Res.json_ (Res.Scores scores 10), eleven_scores) /\
    List.length scores = 10%nat.
Proof.
  split; [ reflexivity | ].
  eexists. split; reflexivity.
Qed.

(** ** Validation of the creation routes *)

(** The four creation routes that reject a body with a required field
    missing: the answer is 400 and the database is the one before. *)
Lemma creation_rejects_missing_field (rt : Server.runtime) (db : Db.database) :
  (forall req, TrainLoraBody.characterName req = None ->
     Server.post_train_lora rt req db
       = (Res.status_json 400 (Res.Error "characterName is required"), db)) /\
  (forall req,
     GenerateJsonBody.character req = None \/ GenerateJsonBody.environment req = None
     \/ GenerateJsonBody.lighting req = None ->
     Server.post_generate_json rt req db
       = (Res.status_json 400
            (Res.Error "character, environment, and lighting are required"), db)) /\
  (forall req, ImageBody.imageUrl req = None ->
     Server.post_score_image rt req db
       = (Res.status_json 400 (Res.Error "imageUrl is required"), db)) /\
  (forall req, ImageBody.imageUrl req = None ->
     Server.post_validate_anatomy rt req db
       = (Res.status_json 400 (Res.Error "imageUrl is required"), db)).
Proof.
  repeat split; intros req H.
  - unfold Server.post_train_lora. rewrite H. reflexivity.
  - unfold Server.post_generate_json. cbv zeta.
    destruct H as [H | [H | H]]; rewrite H; simpl;
      repeat match goal with
             | |- context [ JS.truthy ?v ] => destruct (JS.truthy v)
             end; reflexivity.
  - unfold Server.post_score_image. rewrite H. reflexivity.
  - unfold Server.post_validate_anatomy. rewrite H. reflexivity.
Qed.

(** C3, the code at a body without [duration]: the default 15 is taken
    before the check, so the answer is never 400; when the identifier drawn
    is free the answer is 200 and a deployment of duration 15 is stored. *)
Theorem deploy_remotion_without_duration (rt : Server.runtime) (db : Db.database)
  (jsonConfig : option DeployRemotionBody.config) (effects : option string) :
  let req := {| DeployRemotionBody.jsonConfig := jsonConfig;
                DeployRemotionBody.duration := None;
                DeployRemotionBody.effects := effects |} in
  Res.status (fst (Server.post_deploy_remotion rt req db)) <> 400 /\
  (Db.has_id RemotionDeployments.id (Server.uuidv4 rt 0) (Db.remotion_deployments db) = false ->
   Res.status (fst (Server.post_deploy_remotion rt req db)) = 200 /\
   exists row : RemotionDeployments.row,
     Db.remotion_deployments (snd (Server.post_deploy_remotion rt req db))
       = Db.remotion_deployments db ++ [row] /\
     RemotionDeployments.duration row = 15) /\
  Res.status (fst (Server.post_deploy_remotion (fixed_runtime 0 "job-1" 0) empty_body Db.empty))
    = 200.
Proof.
  cbv zeta. unfold Server.post_deploy_remotion, Server.try_run. simpl.
  unfold Db.add_row. simpl.
  destruct (Db.has_id RemotionDeployments.id (Server.uuidv4 rt 0)
              (Db.remotion_deployments db)); simpl.
  - split; [ discriminate | ]. split; [ discriminate | reflexivity ].
  - split; [ discriminate | ]. split; [ | reflexivity ].
    intros _. split; [ reflexivity | ]. eexists. split; reflexivity.
Qed.

(** C6, the code at a deployment body without [duration]: the request is
    answered 200 and the count of remotion_deployments goes from 0 to 1. *)
Theorem missing_duration_changes_counts :
  DeployRemotionBody.duration empty_body = None /\
  Res.status
    (fst (Server.handle (fixed_runtime 0 "job-1" 0) (Server.POST_deploy_remotion empty_body)
            Db.empty)) = 200 /\
  Db.counts Db.empty = [0; 0; 0; 0; 0; 0] /\
  Db.counts
    (snd (Server.handle (fixed_runtime 0 "job-1" 0) (Server.POST_deploy_remotion empty_body)
            Db.empty)) = [0; 0; 0; 0; 0; 1].
Proof. repeat split. Qed.

(** ** Statistics *)

(** The four counts of GET /api/stats, for every database. *)
Lemma get_stats_counts (db : Db.database) :
  Server.get_stats db
    = (Res.json_
         (Res.Stats (count lora_trainings db) (count json_configs db) (count image_scores db)
            (count remotion_deployments db)), db).
Proof.
  unfold Server.get_stats, Db.select_count, JS.or_else, count. cbv zeta.
  repeat match goal with
         | |- context [ JS.falsy (Z.of_nat ?n) ] =>
           let E := fresh in
           destruct (JS.falsy (Z.of_nat n)) eqn:E;
             [ unfold JS.falsy, JS.falsy_Z in E; apply Z.eqb_eq in E; rewrite E | ]
         end; reflexivity.
Qed.

(** C7, the code after one successful call to POST /api/validate-anatomy:
    the table anatomy_validations holds one record, and the body of
    GET /api/stats has the four counts of the other tables, each 0; it has
    no count of the anatomy validations, whatever the table holds. *)
Theorem stats_omit_anatomy_validations :
  let db := snd (Server.handle (fixed_runtime 0 "check-1" 0)
                   (Server.POST_validate_anatomy an_image) Db.empty) in
  Res.status (fst (Server.handle (fixed_runtime 0 "check-1" 0)
                     (Server.POST_validate_anatomy an_image) Db.empty)) = 200 /\
  count anatomy_validations db = 1 /\
  fst (Server.handle (fixed_runtime 1000 "none" 0) Server.GET_stats db)
    = Res.json_ (Res.Stats 0 0 0 0) /\
  (forall db', reported_count anatomy_validations (Res.sent (fst (Server.get_stats db')))
               = None).
Proof.
  cbv zeta. repeat split.
Qed.

(** ** Counts and successful creation calls *)

Lemma dbRun_count (stmt : Db.statement) (db db' : Db.database) (t : table) :
  Db.dbRun stmt db = JS.Resolved db' ->
  count t db'
    = count t db
      + (if table_eqb t
              match stmt with
              | Db.INSERT_INTO_lora_trainings _ => lora_trainings
              | Db.INSERT_INTO_json_configs _ => json_configs
              | Db.INSERT_INTO_image_scores _ => image_scores
              | Db.INSERT_INTO_anatomy_validations _ => anatomy_validations
              | Db.INSERT_INTO_remotion_deployments _ => remotion_deployments
              end
         then 1 else 0).
Proof.
  destruct stmt; unfold Db.dbRun, Db.add_row;
    match goal with
    | |- context [ Db.has_id ?k ?i ?l ] => destruct (Db.has_id k i l)
    end; try discriminate; intros [= <-]; destruct t; simpl;
    rewrite ?length_app; simpl; lia.
Qed.

Lemma try_run_count (stmt : Db.statement) (db : Db.database) (ok : Res.json) (t : table) :
  count t (snd (Server.try_run stmt db ok))
    = count t db
      + (if table_eqb t
              match stmt with
              | Db.INSERT_INTO_lora_trainings _ => lora_trainings
              | Db.INSERT_INTO_json_configs _ => json_configs
              | Db.INSERT_INTO_image_scores _ => image_scores
              | Db.INSERT_INTO_anatomy_validations _ => anatomy_validations
              | Db.INSERT_INTO_remotion_deployments _ => remotion_deployments
              end
            && (Res.status (fst (Server.try_run stmt db ok)) =? 200)
         then 1 else 0).
Proof.
  unfold Server.try_run. destruct (Db.dbRun stmt db) as [db'|m] eqn:E; simpl.
  - rewrite (dbRun_count stmt db db' t E). rewrite andb_true_r. reflexivity.
  - rewrite andb_false_r. lia.
Qed.

(** One request: the count of a table grows by one exactly when the request
    is a creation call against its route that is answered 200. *)
Lemma handle_count (rt : Server.runtime) (r : Server.request) (db : Db.database)
  (t : table) :
  count t (snd (Server.handle rt r db))
    = count t db + (if created t r (fst (Server.handle rt r db)) then 1 else 0).
Proof.
  unfold created.
  destruct r; simpl creates; cbv iota; simpl Server.handle.
  - simpl. lia.
  - unfold Server.post_train_lora. cbv zeta.
    destruct (JS.truthy (TrainLoraBody.characterName req));
      [ apply try_run_count | simpl; rewrite andb_false_r; lia ].
  - unfold Server.get_train_lora.
    destruct (Db.select_by_id _ _ _); simpl; lia.
  - unfold Server.post_generate_json. cbv zeta.
    destruct (JS.truthy (GenerateJsonBody.character req));
      [ destruct (JS.truthy (GenerateJsonBody.environment req));
        [ destruct (JS.truthy (GenerateJsonBody.lighting req)) | ] | ];
      try apply try_run_count; simpl; rewrite andb_false_r; lia.
  - unfold Server.post_score_image. cbv zeta.
    destruct (JS.truthy (ImageBody.imageUrl req));
      [ destruct (Server.quality_band _); apply try_run_count
      | simpl; rewrite andb_false_r; lia ].
  - simpl. lia.
  - unfold Server.post_validate_anatomy. cbv zeta.
    destruct (JS.truthy (ImageBody.imageUrl req));
      [ apply try_run_count | simpl; rewrite andb_false_r; lia ].
  - unfold Server.post_deploy_remotion. cbv zeta.
    destruct (JS.falsy _);
      [ simpl; rewrite andb_false_r; lia | apply try_run_count ].
  - unfold Server.get_deploy_remotion.
    destruct (Db.select_by_id _ _ _); simpl; lia.
  - simpl. lia.
Qed.

Lemma serve_count (calls : list (Server.runtime * Server.request)) :
  forall (db : Db.database) (t : table),
    count t (snd (Server.serve calls db))
      = count t db + successes t calls (fst (Server.serve calls db)).
Proof.
  induction calls as [|[rt r] calls IH]; intros db t; simpl.
  - lia.
  - pose proof (handle_count rt r db t) as H.
    destruct (Server.handle rt r db) as [res db1]. simpl in H.
    pose proof (IH db1 t) as H1.
    destruct (Server.serve calls db1) as [more db2]. simpl in *. lia.
Qed.


(* ===================================================================== *)
(** * The handlers over a run of requests                                  *)
(* ===================================================================== *)

(** The outcomes of a handler, one goal each: the checks on the body, the
    row found or not, the key free or taken. *)
Ltac outcomes r :=
  destruct r; cbn [Server.handle creates];
  unfold Server.get_health, Server.post_train_lora, Server.get_train_lora,
    Server.post_generate_json, Server.post_score_image, Server.get_scores,
    Server.post_validate_anatomy, Server.post_deploy_remotion,
    Server.get_deploy_remotion, Server.get_stats;
  cbv zeta;
  repeat match goal with
         | |- context [ JS.truthy ?v ] => destruct (JS.truthy v) eqn:?
         | |- context [ Db.select_by_id ?k ?i ?t ] => destruct (Db.select_by_id k i t) eqn:?
         | |- context [ Server.quality_band ?t ] => destruct (Server.quality_band t) eqn:?
         | |- context [ if JS.falsy ?d then _ else _ ] => destruct (JS.falsy d) eqn:?
         end;
  unfold Server.try_run, Db.dbRun, Db.add_row;
  repeat match goal with
         | |- context [ Db.has_id ?k ?i ?t ] => destruct (Db.has_id k i t) eqn:?
         end;
  cbn [fst snd Res.status Res.sent Res.json_ Res.status_json].

Lemma has_id_In {R : Type} (key : R -> string) (i : string) (t : list R) :
  Db.has_id key i t = true <-> In i (map key t).
Proof.
  unfold Db.has_id. rewrite existsb_exists, in_map_iff.
  split; intros (r & H1 & H2).
  - exists r. split; [ apply String.eqb_eq; exact H2 | exact H1 ].
  - exists r. split; [ exact H2 | apply String.eqb_eq; exact H1 ].
Qed.

Lemma has_id_free {R : Type} (key : R -> string) (i : string) (t : list R) :
  Db.has_id key i t = false -> ~ In i (map key t).
Proof.
  intros H C. apply has_id_In in C. congruence.
Qed.



Lemma grows_refl {R : Type} (t : list R) : grows t t.
Proof. exists []. symmetry. apply app_nil_r. Qed.

Lemma grows_trans {R : Type} (a b c : list R) : grows a b -> grows b c -> grows a c.
Proof.
  intros [x ->] [y ->]. exists (x ++ y). symmetry. apply app_assoc.
Qed.

Lemma grows_one {R : Type} (t : list R) (r : R) : grows t (t ++ [r]).
Proof. exists [r]. reflexivity. Qed.

Lemma extends_refl (db : Db.database) : extends db db.
Proof. unfold extends. repeat split; apply grows_refl. Qed.

Lemma extends_trans (a b c : Db.database) : extends a b -> extends b c -> extends a c.
Proof.
  unfold extends. intros (U1 & A1 & B1 & C1 & D1 & E1) (U2 & A2 & B2 & C2 & D2 & E2).
  split; [ congruence | ].
  repeat split; eapply grows_trans; eassumption.
Qed.

Lemma handle_extends (rt : Server.runtime) (r : Server.request) (db : Db.database) :
  extends db (snd (Server.handle rt r db)).
Proof.
  outcomes r; try apply extends_refl;
    unfold extends; cbn; repeat split; try apply grows_refl; apply grows_one.
Qed.

Lemma serve_extends (calls : list (Server.runtime * Server.request)) :
  forall db : Db.database, extends db (snd (Server.serve calls db)).
Proof.
  induction calls as [|[rt r] calls IH]; intros db; simpl.
  - apply extends_refl.
  - pose proof (handle_extends rt r db) as H.
    destruct (Server.handle rt r db) as [res db1]. simpl in H.
    pose proof (IH db1) as H1.
    destruct (Server.serve calls db1) as [more db2]. simpl in *.
    eapply extends_trans; eassumption.
Qed.

Lemma grows_length {R : Type} (t t' : list R) :
  grows t t' -> (List.length t <= List.length t')%nat.
Proof. intros [a ->]. rewrite length_app. lia. Qed.

(** The store is append-only: after any run of requests every table is the
    table before with rows added at its end; no row is changed, moved or
    deleted, [users] is never written, and no count decreases. *)
Theorem serve_append_only (calls : list (Server.runtime * Server.request))
  (db : Db.database) :
  extends db (snd (Server.serve calls db)) /\
  forall t : table, count t db <= count t (snd (Server.serve calls db)).
Proof.
  pose proof (serve_extends calls db) as E. split; [ exact E | ].
  destruct E as (_ & A & B & C & D' & F).
  intros t. destruct t; unfold count; apply inj_le; apply grows_length; assumption.
Qed.

Lemma NoDup_snoc (l : list string) (x : string) : NoDup l -> ~ In x l -> NoDup (l ++ [x]).
Proof.
  intros Hl Hx. apply (Permutation_NoDup (Permutation_cons_append l x)).
  constructor; assumption.
Qed.

Lemma handle_unique_ids (rt : Server.runtime) (r : Server.request) (db : Db.database) :
  unique_ids db -> unique_ids (snd (Server.handle rt r db)).
Proof.
  intros U. outcomes r; try exact U; intros t; pose proof (U t) as Ut;
    destruct t; cbn in *; try exact Ut;
    rewrite map_app; apply NoDup_snoc; try exact Ut;
    apply has_id_free; assumption.
Qed.

(** The keys of every table stay distinct over any run of requests. *)
Theorem serve_unique_ids (calls : list (Server.runtime * Server.request))
  (db : Db.database) :
  unique_ids db -> unique_ids (snd (Server.serve calls db)).
Proof.
  revert db. induction calls as [|[rt r] calls IH]; intros db U; simpl.
  - exact U.
  - pose proof (handle_unique_ids rt r db U) as H.
    destruct (Server.handle rt r db) as [res db1]. simpl in H.
    pose proof (IH db1 H) as H1.
    destruct (Server.serve calls db1) as [more db2]. exact H1.
Qed.

Lemma empty_unique_ids : unique_ids Db.empty.
Proof. intros t. destruct t; constructor. Qed.

(** A run that draws the identifier job-1 twice. *)
Lemma serve_unique_ids_witness : unique_ids (snd (Server.serve a_run Db.empty)).
Proof.
  apply serve_unique_ids. exact empty_unique_ids.
Defined.

(** ** Identifiers *)



(** ** Refused bodies *)


(** ** Polling *)

Lemma select_by_id_None {R : Type} (key : R -> string) (i : string) (t : list R) :
  Db.select_by_id key i t = None <-> ~ In i (map key t).
Proof.
  unfold Db.select_by_id. induction t as [|r t IH]; simpl.
  - split; [ intros _ [] | reflexivity ].
  - destruct (String.eqb_spec (key r) i) as [E|N].
    + split; [ discriminate | intros H; contradiction H; left; exact E ].
    + rewrite IH. split; [ intros H [C|C]; [ contradiction | exact (H C) ] | tauto ].
Qed.

Lemma select_by_id_grows {R : Type} (key : R -> string) (i : string) (t t' : list R)
  (r : R) :
  Db.select_by_id key i t = Some r -> grows t t' -> Db.select_by_id key i t' = Some r.
Proof.
  unfold Db.select_by_id. intros H [a ->].
  induction t as [|x t IH]; simpl in *; [ discriminate | ].
  destruct (key x =? i)%string; [ exact H | apply IH; exact H ].
Qed.

Lemma select_by_id_last {R : Type} (key : R -> string) (t : list R) (r : R) :
  Db.has_id key (key r) t = false -> Db.select_by_id key (key r) (t ++ [r]) = Some r.
Proof.
  unfold Db.has_id, Db.select_by_id. induction t as [|x t IH]; simpl.
  - intros _. rewrite String.eqb_refl. reflexivity.
  - destruct (key x =? key r)%string; simpl; [ discriminate | exact IH ].
Qed.

(** A poll is answered 404 exactly when no job of the table has the
    identifier and 200 exactly when one has; it changes nothing either
    way. *)
Theorem poll_status (j : Spec.job_type) (rt : Server.runtime) (jobId : string)
  (db : Db.database) :
  (Res.status (fst (poll j rt jobId db)) = 404 <-> ~ In jobId (table_ids (job_table j) db)) /\
  (Res.status (fst (poll j rt jobId db)) = 200 <-> In jobId (table_ids (job_table j) db)) /\
  (reported_progress (fst (poll j rt jobId db)) = None <->
   ~ In jobId (table_ids (job_table j) db)) /\
  snd (poll j rt jobId db) = db.
Proof.
  destruct j; cbn [poll job_table table_ids];
    unfold Server.get_train_lora, Server.get_deploy_remotion.
  - pose proof (select_by_id_None LoraTrainings.id jobId (Db.lora_trainings db)) as N.
    destruct (Db.select_by_id LoraTrainings.id jobId (Db.lora_trainings db)) as [row|];
      cbn [fst snd Res.status Res.json_ Res.status_json reported_progress Res.sent].
    + assert (I : In jobId (map LoraTrainings.id (Db.lora_trainings db))).
      { destruct (in_dec string_dec jobId (map LoraTrainings.id (Db.lora_trainings db)))
          as [I|I]; [ exact I | ]. apply N in I. discriminate I. }
      repeat split; try discriminate; try tauto; intros H; contradiction.
    + assert (I : ~ In jobId (map LoraTrainings.id (Db.lora_trainings db)))
        by (apply N; reflexivity).
      repeat split; try discriminate; try tauto.
  - pose proof (select_by_id_None RemotionDeployments.id jobId
                  (Db.remotion_deployments db)) as N.
    destruct (Db.select_by_id RemotionDeployments.id jobId (Db.remotion_deployments db))
      as [row|];
      cbn [fst snd Res.status Res.json_ Res.status_json reported_progress Res.sent].
    + assert (I : In jobId (map RemotionDeployments.id (Db.remotion_deployments db))).
      { destruct (in_dec string_dec jobId
                    (map RemotionDeployments.id (Db.remotion_deployments db)))
          as [I|I]; [ exact I | ]. apply N in I. discriminate I. }
      repeat split; try discriminate; try tauto; intros H; contradiction.
    + assert (I : ~ In jobId (map RemotionDeployments.id (Db.remotion_deployments db)))
        by (apply N; reflexivity).
      repeat split; try discriminate; try tauto.
Qed.

(** ** Progress over time *)

Section Monotone.

Local Open Scope Q_scope.

Lemma toFixed2_nonpos (x : Q) : x < 0 -> (JS.toFixed2 x <= 0)%Z.
Proof.
  intros Hx. unfold JS.toFixed2.
  destruct (Qle_bool 0 x) eqn:E.
  - apply Qle_bool_iff in E. apply Qle_not_lt in E. contradiction.
  - assert (K : inject_Z 0 <= - x * 100 + (1 # 2)).
    { setoid_replace (inject_Z 0) with (0 * 100 + 0) by reflexivity.
      apply Qplus_le_compat; [ | discriminate ].
      apply Qmult_le_compat_r; [ | discriminate ].
      apply Qlt_le_weak. apply Qopp_lt_compat in Hx.
      setoid_replace 0 with (- 0) by reflexivity. exact Hx. }
    apply Qfloor_resp_le in K. rewrite Qfloor_Z in K. lia.
Qed.

Lemma toFixed2_monotone (x y : Q) : x <= y -> (JS.toFixed2 x <= JS.toFixed2 y)%Z.
Proof.
  intros H.
  destruct (Qlt_le_dec x 0) as [Hx|Hx]; destruct (Qlt_le_dec y 0) as [Hy|Hy].
  - unfold JS.toFixed2.
    assert (Ex : Qle_bool 0 x = false).
    { destruct (Qle_bool 0 x) eqn:E; [ | reflexivity ].
      apply Qle_bool_iff in E. apply Qle_not_lt in E. contradiction. }
    assert (Ey : Qle_bool 0 y = false).
    { destruct (Qle_bool 0 y) eqn:E; [ | reflexivity ].
      apply Qle_bool_iff in E. apply Qle_not_lt in E. contradiction. }
    rewrite Ex, Ey.
    assert (K : - y * 100 + (1 # 2) <= - x * 100 + (1 # 2)).
    { apply Qplus_le_compat; [ | apply Qle_refl ].
      apply Qmult_le_compat_r; [ | discriminate ].
      apply Qopp_le_compat. exact H. }
    apply Qfloor_resp_le in K. lia.
  - pose proof (toFixed2_nonpos x Hx). pose proof (toFixed2_nonneg y Hy). lia.
  - exfalso. apply (Qle_not_lt _ _ (Qle_trans _ _ _ Hx H)). exact Hy.
  - unfold JS.toFixed2.
    assert (Ex : Qle_bool 0 x = true) by (apply Qle_bool_iff; exact Hx).
    assert (Ey : Qle_bool 0 y = true) by (apply Qle_bool_iff; exact Hy).
    rewrite Ex, Ey. apply Qfloor_resp_le.
    apply Qplus_le_compat; [ | apply Qle_refl ].
    apply Qmult_le_compat_r; [ exact H | discriminate ].
Qed.

Lemma percent_monotone (D e1 e2 : Z) :
  (0 < D)%Z -> (e1 <= e2)%Z -> percent D e1 <= percent D e2.
Proof.
  intros HD He. unfold percent, Qdiv.
  apply Qmult_le_compat_r; [ | discriminate ].
  apply Qmult_le_compat_r; [ rewrite <- Zle_Qle; exact He | ].
  apply Qlt_le_weak. apply Qinv_lt_0_compat.
  change 0 with (inject_Z 0). rewrite <- Zlt_Qlt. exact HD.
Qed.

Lemma estimate_monotone (D e1 e2 : Z) :
  (0 < D)%Z -> (e1 <= e2)%Z -> estimate D e1 <= estimate D e2.
Proof.
  intros HD He. unfold estimate, JS.parseFloat2, JS.Math_min.
  assert (H : (JS.toFixed2 (Qmin 100 (percent D e1))
               <= JS.toFixed2 (Qmin 100 (percent D e2)))%Z).
  { apply toFixed2_monotone. apply Q.min_le_compat_l.
    apply percent_monotone; assumption. }
  unfold Qle. simpl. lia.
Qed.

End Monotone.

(** The progress of a job never goes down as the clock of the poll goes up:
    two polls of a job that is found report progresses in the order of their
    clocks. *)
Theorem poll_progress_monotone (j : Spec.job_type) (rt1 rt2 : Server.runtime)
  (jobId : string) (db : Db.database) :
  In jobId (table_ids (job_table j) db) ->
  Server.Date_now rt1 <= Server.Date_now rt2 ->
  exists p1 p2 : Q,
    reported_progress (fst (poll j rt1 jobId db)) = Some p1 /\
    reported_progress (fst (poll j rt2 jobId db)) = Some p2 /\
    (p1 <= p2)%Q.
Proof.
  intros Hin Hle.
  assert (Hc : exists c, created_at j jobId db = Some c).
  { destruct j; cbn [job_table table_ids created_at] in *.
    - destruct (Db.select_by_id LoraTrainings.id jobId (Db.lora_trainings db)) eqn:E;
        [ eexists; reflexivity | ].
      apply select_by_id_None in E. contradiction.
    - destruct (Db.select_by_id RemotionDeployments.id jobId (Db.remotion_deployments db))
        eqn:E; [ eexists; reflexivity | ].
      apply select_by_id_None in E. contradiction. }
  destruct Hc as [c Hc].
  destruct (poll_found j rt1 jobId db c Hc) as (_ & _ & H1).
  destruct (poll_found j rt2 jobId db c Hc) as (_ & _ & H2).
  do 2 eexists. split; [ exact H1 | ]. split; [ exact H2 | ].
  apply estimate_monotone; [ apply expectedDurationMs_pos | lia ].
Qed.

(** The training stored at second 1000, polled at 1030 s and at 1090 s. *)
Lemma poll_progress_monotone_witness :
  exists p1 p2 : Q,
    reported_progress (fst (poll Spec.Training (at_time 1030000) "job-1" one_training))
      = Some p1 /\
    reported_progress (fst (poll Spec.Training (at_time 1090000) "job-1" one_training))
      = Some p2 /\
    (p1 <= p2)%Q.
Proof.
  apply poll_progress_monotone.
  - simpl. left. reflexivity.
  - simpl. lia.
Defined.

(** ** A job created, then polled *)

Lemma created_at_extends (j : Spec.job_type) (jobId : string) (db db' : Db.database)
  (c : Z) :
  created_at j jobId db = Some c -> extends db db' -> created_at j jobId db' = Some c.
Proof.
  intros H (_ & A & _ & _ & _ & F). destruct j; cbn [created_at] in *.
  - destruct (Db.select_by_id LoraTrainings.id jobId (Db.lora_trainings db)) as [r|] eqn:E;
      [ | discriminate ].
    rewrite (select_by_id_grows _ _ _ _ _ E A). exact H.
  - destruct (Db.select_by_id RemotionDeployments.id jobId (Db.remotion_deployments db))
      as [r|] eqn:E; [ | discriminate ].
    rewrite (select_by_id_grows _ _ _ _ _ E F). exact H.
Qed.

(** The job a creation call stores is found under the identifier of its
    response, with the second of the call as its creation time. *)
Lemma created_then_found (j : Spec.job_type) (rt : Server.runtime) (r : Server.request)
  (db : Db.database) :
  creates r = Some (job_table j) ->
  Res.status (fst (Server.handle rt r db)) = 200 ->
  exists jobId : string,
    started_job (fst (Server.handle rt r db)) = Some jobId /\
    created_at j jobId (snd (Server.handle rt r db))
      = Some (Db.datetime_now (Server.Date_now rt)).
Proof.
  destruct j; outcomes r; intros [= ] Hs; try discriminate Hs;
    eexists; (split; [ reflexivity | ]); cbn [created_at Db.lora_trainings
      Db.remotion_deployments];
    match goal with
    | H : Db.has_id ?k _ ?t = false |- context [ Db.select_by_id ?k _ (?t ++ [?row]) ] =>
      let L := fresh in
      pose proof (select_by_id_last k t row H) as L;
      cbn [LoraTrainings.id RemotionDeployments.id] in L; rewrite L
    end; reflexivity.
Qed.





Lemma lookup_after_run {R : Type} (key : R -> string) (t t' : list R) (row : R) :
  Db.has_id key (key row) t = false ->
  grows (t ++ [row]) t' ->
  Db.select_by_id key (key row) t' = Some row.
Proof.
  intros H G. eapply select_by_id_grows; [ apply select_by_id_last; exact H | exact G ].
Qed.





(** ** Labels *)

Lemma handle_labelled (rt : Server.runtime) (r : Server.request) (db : Db.database) :
  labelled db -> labelled (snd (Server.handle rt r db)).
Proof.
  intros [L D]. outcomes r; unfold labelled; cbn [Db.lora_trainings Db.remotion_deployments];
    try (split; assumption);
    split; try assumption; apply Forall_app; (split; [ assumption | ]);
    (constructor; [ | constructor ]); repeat split.
Qed.

Lemma serve_labelled (calls : list (Server.runtime * Server.request)) :
  forall db : Db.database, labelled db -> labelled (snd (Server.serve calls db)).
Proof.
  induction calls as [|[rt r] calls IH]; intros db L; simpl.
  - exact L.
  - pose proof (handle_labelled rt r db L) as H.
    destruct (Server.handle rt r db) as [res db1]. simpl in H.
    pose proof (IH db1 H) as H1.
    destruct (Server.serve calls db1) as [more db2]. exact H1.
Qed.

Lemma select_by_id_In {R : Type} (key : R -> string) (i : string) (t : list R) (r : R) :
  Db.select_by_id key i t = Some r -> In r t.
Proof. unfold Db.select_by_id. intros H. apply find_some in H. tauto. Qed.

(** The status of a job is a label fixed at creation: after any run of
    requests from the empty database every stored training is "training"
    with a stored progress of 0, every stored deployment is "deploying" with
    a stored progress of 0 and no URL or path, and a poll answers that
    label whatever its clock reads, also once the progress it reports is
    100. *)
Theorem polled_label_is_fixed (calls : list (Server.runtime * Server.request))
  (j : Spec.job_type) (rt : Server.runtime) (jobId : string) :
  let db := snd (Server.serve calls Db.empty) in
  Res.status (fst (poll j rt jobId db)) = 200 ->
  labelled db /\
  match Res.sent (fst (poll j rt jobId db)) with
  | Res.TrainingPolled training => LoraTrainings.status training = "training"%string
  | Res.DeploymentPolled deployment =>
    RemotionDeployments.status deployment = "deploying"%string /\
    RemotionDeployments.vercelUrl deployment = None /\
    RemotionDeployments.videoPath deployment = None
  | _ => False
  end.
Proof.
  cbv zeta.
  assert (L : labelled (snd (Server.serve calls Db.empty))).
  { apply serve_labelled. split; constructor. }
  set (db := snd (Server.serve calls Db.empty)) in *.
  intros Hs. split; [ exact L | ]. destruct L as [LT LD].
  destruct j; cbn [poll] in *;
    unfold Server.get_train_lora, Server.get_deploy_remotion in *.
  - destruct (Db.select_by_id LoraTrainings.id jobId (Db.lora_trainings db)) as [row|] eqn:E;
      [ | discriminate Hs ].
    apply select_by_id_In in E. rewrite Forall_forall in LT.
    destruct (LT row E) as [S _]. exact S.
  - destruct (Db.select_by_id RemotionDeployments.id jobId (Db.remotion_deployments db))
      as [row|] eqn:E; [ | discriminate Hs ].
    apply select_by_id_In in E. rewrite Forall_forall in LD.
    destruct (LD row E) as (S & _ & U & V). cbn. repeat split; assumption.
Qed.

(** The training of the run, polled a day later: the progress is 100 and
    the status still "training". *)
Lemma polled_label_is_fixed_witness :
  reported_progress
    (fst (poll Spec.Training (at_time 86400000) "job-1" (snd (Server.serve a_run Db.empty))))
    = Some (10000 # 100) /\
  match Res.sent (fst (poll Spec.Training (at_time 86400000) "job-1"
                         (snd (Server.serve a_run Db.empty)))) with
  | Res.TrainingPolled training => LoraTrainings.status training = "training"%string
  | Res.DeploymentPolled deployment =>
    RemotionDeployments.status deployment = "deploying"%string /\
    RemotionDeployments.vercelUrl deployment = None /\
    RemotionDeployments.videoPath deployment = None
  | _ => False
  end.
Proof.
  split; [ reflexivity | ].
  exact (proj2 (polled_label_is_fixed a_run Spec.Training (at_time 86400000) "job-1"
                  eq_refl)).
Defined.

(** ** The bands in order *)

(** A higher total never gets a worse band, and the band is one of the
    four. *)
Theorem quality_band_monotone (t1 t2 : Z) :
  t1 <= t2 ->
  band_rank (fst (Server.quality_band t1)) <= band_rank (fst (Server.quality_band t2)) /\
  In (fst (Server.quality_band t1)) [ "Weak"; "Fair"; "Good"; "Excellent" ]%string.
Proof.
  intros H. unfold Server.quality_band.
  destruct (Z.geb_spec t1 85); destruct (Z.geb_spec t2 85); try lia;
    destruct (Z.geb_spec t1 75); destruct (Z.geb_spec t2 75); try lia;
    destruct (Z.geb_spec t1 60); destruct (Z.geb_spec t2 60); try lia;
    (split; [ vm_compute; discriminate | simpl; tauto ]).
Qed.

(** 74 against 75: Fair against Good. *)
Lemma quality_band_monotone_witness :
  band_rank (fst (Server.quality_band 74)) <= band_rank (fst (Server.quality_band 75)).
Proof.
  refine (proj1 (quality_band_monotone 74 75 _)). lia.
Defined.

(** ** Empty optional fields *)

(** POST /api/generate-json treats an optional field that is empty as one
    that is absent: the response and the database are the same as for the
    body with its empty optional fields left out. *)
Theorem generate_json_ignores_empty (rt : Server.runtime) (req : GenerateJsonBody.t)
  (db : Db.database) :
  Server.post_generate_json rt req db
    = Server.post_generate_json rt (optional_left_out req) db.
Proof.
  unfold Server.post_generate_json, optional_left_out. cbv zeta.
  cbn [GenerateJsonBody.character GenerateJsonBody.environment GenerateJsonBody.lighting
       GenerateJsonBody.camera GenerateJsonBody.style GenerateJsonBody.negativePrompt].
  assert (E : forall v d, JS.or_else (without_empty v) d = JS.or_else v d).
  { intros [[|c s]|] d; reflexivity. }
  rewrite !E. reflexivity.
Qed.

(** ** Scores in the store *)

Lemma drawn_scores (rt : Server.runtime) :
  unit_draws rt ->
  let drama := JS.Math_round (Server.Math_random rt 0 * 30 + 60) in
  let saliency := JS.Math_round (Server.Math_random rt 1 * 30 + 65) in
  let emotion := JS.Math_round (Server.Math_random rt 2 * 30 + 60) in
  let depth := JS.Math_round (Server.Math_random rt 3 * 30 + 70) in
  let signature := JS.Math_round (Server.Math_random rt 4 * 30 + 65) in
  60 <= drama <= 90 /\ 65 <= saliency <= 95 /\ 60 <= emotion <= 90 /\
  70 <= depth <= 100 /\ 65 <= signature <= 95 /\
  64 <= JS.Math_round (inject_Z (drama + saliency + emotion + depth + signature) / 5) <= 94.
Proof.
  intros Hr. cbv zeta.
  pose proof (Math_round_draw (Server.Math_random rt 0) 30 60 ltac:(lia)
                (proj1 (Hr 0%nat)) (proj2 (Hr 0%nat))) as B0.
  pose proof (Math_round_draw (Server.Math_random rt 1) 30 65 ltac:(lia)
                (proj1 (Hr 1%nat)) (proj2 (Hr 1%nat))) as B1.
  pose proof (Math_round_draw (Server.Math_random rt 2) 30 60 ltac:(lia)
                (proj1 (Hr 2%nat)) (proj2 (Hr 2%nat))) as B2.
  pose proof (Math_round_draw (Server.Math_random rt 3) 30 70 ltac:(lia)
                (proj1 (Hr 3%nat)) (proj2 (Hr 3%nat))) as B3.
  pose proof (Math_round_draw (Server.Math_random rt 4) 30 65 ltac:(lia)
                (proj1 (Hr 4%nat)) (proj2 (Hr 4%nat))) as B4.
  change (inject_Z 30) with 30%Q in *.
  change (inject_Z 60) with 60%Q in *. change (inject_Z 65) with 65%Q in *.
  change (inject_Z 70) with 70%Q in *.
  repeat (split; [ lia | ]).
  change 5%Q with (inject_Z 5). rewrite Math_round_mean by lia.
  split.
  - apply Z.div_le_lower_bound; lia.
  - apply Z.lt_succ_r. apply Z.div_lt_upper_bound; lia.
Qed.

Lemma drawn_validation (rt : Server.runtime) :
  unit_draws rt ->
  let hands := JS.Math_round (Server.Math_random rt 0 * 10 + 85) in
  let face := JS.Math_round (Server.Math_random rt 1 * 10 + 88) in
  let body := JS.Math_round (Server.Math_random rt 2 * 10 + 82) in
  85 <= hands <= 95 /\ 88 <= face <= 98 /\ 82 <= body <= 92 /\
  85 <= JS.Math_round (inject_Z (hands + face + body) / 3) <= 95.
Proof.
  intros Hr. cbv zeta.
  pose proof (Math_round_draw (Server.Math_random rt 0) 10 85 ltac:(lia)
                (proj1 (Hr 0%nat)) (proj2 (Hr 0%nat))) as B0.
  pose proof (Math_round_draw (Server.Math_random rt 1) 10 88 ltac:(lia)
                (proj1 (Hr 1%nat)) (proj2 (Hr 1%nat))) as B1.
  pose proof (Math_round_draw (Server.Math_random rt 2) 10 82 ltac:(lia)
                (proj1 (Hr 2%nat)) (proj2 (Hr 2%nat))) as B2.
  change (inject_Z 10) with 10%Q in *.
  change (inject_Z 85) with 85%Q in *. change (inject_Z 88) with 88%Q in *.
  change (inject_Z 82) with 82%Q in *.
  repeat (split; [ lia | ]).
  change 3%Q with (inject_Z 3). rewrite Math_round_mean by lia.
  split.
  - apply Z.div_le_lower_bound; lia.
  - apply Z.lt_succ_r. apply Z.div_lt_upper_bound; lia.
Qed.

Lemma handle_sound (rt : Server.runtime) (r : Server.request) (db : Db.database) :
  unit_draws rt -> sound_store db -> sound_store (snd (Server.handle rt r db)).
Proof.
  intros U [S V].
  outcomes r; unfold sound_store; cbn [Db.image_scores Db.anatomy_validations];
    try (split; assumption);
    split; try assumption; apply Forall_app; (split; [ assumption | ]);
    (constructor; [ | constructor ]).
  - destruct (drawn_scores rt U) as (B0 & B1 & B2 & B3 & B4 & Bt).
    unfold score_sound.
    cbn [ImageScores.drama ImageScores.saliency ImageScores.emotion ImageScores.depth
         ImageScores.signature ImageScores.total ImageScores.feedback].
    repeat (split; [ assumption || reflexivity | ]).
    match goal with
    | H : Server.quality_band _ = (_, _) |- _ => rewrite H
    end. reflexivity.
  - destruct (drawn_validation rt U) as (B0 & B1 & B2 & Bo).
    unfold validation_sound.
    cbn [AnatomyValidations.handsScore AnatomyValidations.faceScore
         AnatomyValidations.bodyScore AnatomyValidations.overallScore
         AnatomyValidations.issues].
    repeat (split; [ assumption | ]).
    match goal with
    | |- context [ ?o <? 85 ] =>
      replace (o <? 85) with false by (symmetry; apply Z.ltb_ge; lia)
    end. reflexivity.
Qed.

Lemma serve_sound (calls : list (Server.runtime * Server.request)) :
  forall db : Db.database,
    unit_runs calls -> sound_store db -> sound_store (snd (Server.serve calls db)).
Proof.
  induction calls as [|[rt r] calls IH]; intros db U S; simpl.
  - exact S.
  - inversion U as [|? ? Urt Ucalls]; subst. simpl in Urt.
    pose proof (handle_sound rt r db Urt S) as H.
    destruct (Server.handle rt r db) as [res db1]. simpl in H.
    pose proof (IH db1 Ucalls H) as H1.
    destruct (Server.serve calls db1) as [more db2]. exact H1.
Qed.

Lemma Forall_firstn {A : Type} (P : A -> Prop) (n : nat) (l : list A) :
  Forall P l -> Forall P (firstn n l).
Proof.
  intros H. rewrite <- (firstn_skipn n l) in H. apply Forall_app in H. tauto.
Qed.

(** With draws of the unit interval, every score and every validation that
    a run of requests stores is within its bounds: the five dimensions in
    their intervals, the total their rounded mean, in [64, 94], with the
    feedback of its band; the overall score of a validation in [85, 95] and
    its issues empty.  So GET /api/scores lists only such scores, none of
    the band Weak. *)
Theorem serve_sound_scores (calls : list (Server.runtime * Server.request))
  (db : Db.database) :
  unit_runs calls ->
  sound_store db ->
  let db' := snd (Server.serve calls db) in
  sound_store db' /\
  exists (scores : list ImageScores.row) (total : Z),
    fst (Server.get_scores db') = Res.json_ (Res.Scores scores total) /\
    Forall score_sound scores /\
    Forall (fun row =>
              In (fst (Server.quality_band (ImageScores.total row)))
                 [ "Fair"; "Good"; "Excellent" ]%string /\
              ImageScores.feedback row
                <> "Major improvements needed in multiple areas"%string) scores.
Proof.
  intros U S db'. pose proof (serve_sound calls db U S) as S'. fold db' in S'.
  split; [ exact S' | ].
  do 2 eexists. split; [ reflexivity | ].
  assert (F : Forall score_sound (Db.select_recent_scores db')).
  { unfold Db.select_recent_scores. apply Forall_firstn.
    apply (Permutation_Forall
             (Permutation_sym (order_by_createdAt_desc_perm (Db.image_scores db')))).
    exact (proj1 S'). }
  split; [ exact F | ].
  eapply Forall_impl; [ | exact F ].
  intros row (_ & _ & _ & _ & _ & _ & Bt & Hf). rewrite Hf.
  unfold Server.quality_band.
  destruct (Z.geb_spec (ImageScores.total row) 85);
    [ | destruct (Z.geb_spec (ImageScores.total row) 75);
        [ | destruct (Z.geb_spec (ImageScores.total row) 60); [ | lia ] ] ];
    (split; [ simpl; tauto | discriminate ]).
Qed.

Lemma a_run_unit_draws : unit_runs a_run.
Proof.
  unfold unit_runs, a_run.
  repeat (constructor;
          [ apply fixed_runtime_unit_draws; [ discriminate | reflexivity ] | ]).
  constructor.
Qed.

(** The run of seven requests, every draw being 1/2. *)
Lemma serve_sound_scores_witness : sound_store (snd (Server.serve a_run Db.empty)).
Proof.
  refine (proj1 (serve_sound_scores a_run Db.empty a_run_unit_draws _)).
  split; constructor.
Defined.
